(** * CRISAP climate-risk dashboard: the synthetic data generators

    A shallow embedding of the two data generators of
    [crisap_GLOBAL_CLD_dashboard.py]:

    - [generate_climate_data]  (the point estimator, source lines 106-142),
    - [generate_time_series]   (the series projector, source lines 146-169),

    together with the parts of Python, NumPy, pandas and Streamlit they
    rest on.

    Modelling choices.

    - Python floats are idealised as exact rationals ([Q]); [round] is
      round-half-to-even at a decimal position and returns a reduced
      fraction, so equal numbers are equal terms.  Where a bound turns on
      the rounding of the arithmetic itself, the index formula is also
      given on IEEE binary64 numbers ([Binary64]).
    - [np.random] is a module-level generator: it is a field of the
      [world] that every call reads and writes.  The generator itself
      (NumPy's Mersenne Twister) and Python's [hash] on strings are
      interfaces ([RandomState], [StrHash]); the theorems hold for every
      implementation of them.
    - The world also carries a ghost [trace] of the calls made to the
      generator, so that the order of the draws can be stated.
    - A failing dictionary subscript raises [KeyError]; calls therefore
      return a [result] next to the new world.
    - [@st.cache_data] is modelled by [cache_data], a memo table keyed by
      the argument tuple. *)

From Stdlib Require Import ZArith QArith Qround Lqa Lia List Sorted String Ascii Bool.
From Stdlib Require Import Uint63 PrimFloat SpecFloat FloatOps.
Import ListNotations.

Local Open Scope string_scope.
Local Open Scope Q_scope.

(** ** Python numbers *)

(** [len(s)] as a number usable in float arithmetic; the region names of
    the source are ASCII, one character per byte. *)
Definition len (s : string) : Q := inject_Z (Z.of_nat (String.length s)).

(** Nearest integer, ties to the even neighbour. *)
Definition round_half_even (x : Q) : Z :=
  let f := Qfloor x in
  match Qcompare (x - inject_Z f) (1 # 2) with
  | Lt => f
  | Eq => if Z.even f then f else (f + 1)%Z
  | Gt => (f + 1)%Z
  end.

Definition pow10 (ndigits : nat) : Q := inject_Z (10 ^ Z.of_nat ndigits).

(** [round(x, ndigits)] for [ndigits >= 0]. *)
Definition round (x : Q) (ndigits : nat) : Q :=
  Qred (inject_Z (round_half_even (x * pow10 ndigits)) / pow10 ndigits).

(** [max(a, b)]: the first argument unless the second is strictly larger. *)
Definition max (a b : Q) : Q := if Qle_bool b a then a else b.

(** [list(range(start, stop, step))] for a positive [step]; the length is
    CPython's [1 + (stop - 1 - start) // step] when [start < stop].  The
    source only uses [step = 10]. *)
Definition range (start stop step : Z) : list Z :=
  let n := if (start <? stop)%Z
           then Z.to_nat (1 + (stop - 1 - start) / step)
           else O in
  map (fun i => (start + step * Z.of_nat i)%Z) (seq 0 n).

(** ** Exceptions and dictionaries *)

Inductive exn : Type :=
| KeyError (key : string)
| ValueError (msg : string).

Inductive result (A : Type) : Type :=
| Ok (a : A)
| Raise (e : exn).
Arguments Ok {A} a.
Arguments Raise {A} e.

Definition is_ok {A} (r : result A) : bool :=
  match r with Ok _ => true | Raise _ => false end.

(** A dict literal with string keys, in insertion order. *)
Definition dict (V : Type) : Type := list (string * V).

Fixpoint get {V} (d : dict V) (k : string) : option V :=
  match d with
  | [] => None
  | (k', v) :: d' => if String.eqb k k' then Some v else get d' k
  end.

Definition keys {V} (d : dict V) : list string := map fst d.

(** ** The lookup tables of the source *)

(** Lines 112-116 and 154-158. *)
Definition scenario_multiplier : dict Q :=
  [ ("RCP 2.6 (Low emissions)", 0.7);
    ("RCP 4.5 (Intermediate)", 1.0);
    ("RCP 8.5 (High emissions)", 1.5) ].

(** Lines 118-123. *)
Definition time_multiplier : dict Q :=
  [ ("2030", 0.8); ("2050", 1.0); ("2070", 1.3); ("2100", 1.6) ].

(** Line 60. *)
Definition country_list : list string :=
  [ "Ghana"; "Nigeria"; "Kenya"; "South Africa"; "Egypt"; "Morocco";
    "Tanzania"; "Ethiopia" ].

(** Line 77: the region the sidebar falls back to for a country without
    an entry in [region_list]. *)
Definition fallback_region : string := "All Regions".

(** Lines 63-72. *)
Definition region_list : dict (list string) :=
  [ ("Ghana", ["Greater Accra"; "Ashanti"; "Northern"; "Western"; "Eastern"; "Central"]);
    ("Nigeria", ["Lagos"; "Abuja"; "Kano"; "Rivers"; "Kaduna"; "Oyo"]);
    ("Kenya", ["Nairobi"; "Mombasa"; "Kisumu"; "Nakuru"; "Eldoret"]);
    ("South Africa", ["Gauteng"; "Western Cape"; "KwaZulu-Natal"; "Eastern Cape"]);
    ("Egypt", ["Cairo"; "Alexandria"; "Giza"; "Luxor"]);
    ("Morocco", ["Casablanca"; "Rabat"; "Marrakech"; "Fes"]);
    ("Tanzania", ["Dar es Salaam"; "Zanzibar"; "Arusha"; "Mwanza"]);
    ("Ethiopia", ["Addis Ababa"; "Dire Dawa"; "Bahir Dar"; "Mekelle"]) ].

(** ** The random generator and the string hash *)

(** What [np.random] offers to the source: reseeding, and one uniform or
    one normal sample, each advancing the generator state. *)
Class RandomState : Type := {
  rstate : Type;
  rs_seed : Z -> rstate;
  rs_uniform : Q -> Q -> rstate -> Q * rstate;
  rs_normal : Q -> Q -> rstate -> Q * rstate
}.

(** Python's built-in [hash] on [str]: a fixed function within one
    process. *)
Class StrHash : Type := { hash : string -> Z }.

Inductive dist : Type :=
| Uniform (low high : Q)
| Normal (loc scale : Q).

Inductive event : Type :=
| Seeded (seed : Z)
| Drew (d : dist) (value : Q).

Definition sample `{RandomState} (d : dist) (g : rstate) : Q * rstate :=
  match d with
  | Uniform low high => rs_uniform low high g
  | Normal loc scale => rs_normal loc scale g
  end.

(** The values obtained by issuing the requests [ds], in order, from
    state [g]. *)
Fixpoint stream `{RandomState} (ds : list dist) (g : rstate) : list Q :=
  match ds with
  | [] => []
  | d :: ds' => fst (sample d g) :: stream ds' (snd (sample d g))
  end.

Fixpoint after `{RandomState} (ds : list dist) (g : rstate) : rstate :=
  match ds with
  | [] => g
  | d :: ds' => after ds' (snd (sample d g))
  end.

Fixpoint draws (t : list event) : list dist :=
  match t with
  | [] => []
  | Seeded _ :: t' => draws t'
  | Drew d _ :: t' => d :: draws t'
  end.

(** The trace entries these requests leave, from state [g]. *)
Fixpoint log_of `{RandomState} (ds : list dist) (g : rstate) : list event :=
  match ds with
  | [] => []
  | d :: ds' => Drew d (fst (sample d g)) :: log_of ds' (snd (sample d g))
  end.

(** The requests [generate_climate_data] issues, in program order: line
    127 runs before the dict display of lines 130-140. *)
Definition climate_draws : list dist :=
  [ Normal 0 0.2;
    Uniform 0.5 4.5; Uniform (-30) 20; Uniform 10 80;
    Uniform 0 100; Uniform 0 100; Uniform (-30) 5;
    Uniform 0 100; Uniform 0 100 ].

(** The requests [generate_time_series] issues over [n] years: one list
    comprehension after the other. *)
Definition series_draws (n : nat) : list dist :=
  (repeat (Uniform 0.1 0.5) n ++ repeat (Normal 0 0.1) n
   ++ repeat (Uniform 0.5 2.0) n ++ repeat (Uniform 0.2 1.5) n)%list.

(** The draw order as the specification words it: the economic-loss
    normal draw ninth and last. *)
Definition spec_climate_draws : list dist :=
  [ Uniform 0.5 4.5; Uniform (-30) 20; Uniform 10 80;
    Uniform 0 100; Uniform 0 100; Uniform (-30) 5;
    Uniform 0 100; Uniform 0 100;
    Normal 0 0.2 ].

(** The draw order as the specification words it: the four metrics of a
    year before the next year. *)
Definition spec_series_draws (n : nat) : list dist :=
  List.concat (repeat [ Uniform 0.1 0.5; Normal 0 0.1;
                   Uniform 0.5 2.0; Uniform 0.2 1.5 ] n).

Definition is_normal (d : dist) : bool :=
  match d with Normal _ _ => true | Uniform _ _ => false end.

(** ** Data frames *)

Inductive column : Type :=
| IntCol (xs : list Z)
| FloatCol (xs : list Q).

Definition col_len (c : column) : nat :=
  match c with
  | IntCol xs => List.length xs
  | FloatCol xs => List.length xs
  end.

Record DataFrame : Type := { columns : dict column; nrows : nat }.

(** [pd.DataFrame(data)] for a dict of lists: all lists must have one
    length. *)
Definition pd_DataFrame (data : dict column) : result DataFrame :=
  match data with
  | [] => Ok {| columns := []; nrows := O |}
  | (_, c) :: rest =>
      if forallb (fun kc => Nat.eqb (col_len (snd kc)) (col_len c)) rest
      then Ok {| columns := data; nrows := col_len c |}
      else Raise (ValueError "All arrays must be of the same length")
  end.

Definition float_col (df : DataFrame) (name : string) : list Q :=
  match get (columns df) name with
  | Some (FloatCol xs) => xs
  | _ => []
  end.

Definition int_col (df : DataFrame) (name : string) : list Z :=
  match get (columns df) name with
  | Some (IntCol xs) => xs
  | _ => []
  end.

(** ** The generators *)

Section Generators.
Context `{RS : RandomState} `{SH : StrHash}.

(** The process state the generators touch. *)
Record world : Type := { rng : rstate; trace : list event }.

(** Computations that read and write the world and may raise. *)
Definition M (A : Type) : Type := world -> result A * world.

Definition ret {A} (a : A) : M A := fun w => (Ok a, w).

Definition bind {A B} (m : M A) (k : A -> M B) : M B :=
  fun w =>
    match m w with
    | (Ok a, w') => k a w'
    | (Raise e, w') => (Raise e, w')
    end.

Definition raise {A} (e : exn) : M A := fun w => (Raise e, w).

Definition lift {A} (r : result A) : M A := fun w => (r, w).

Notation "x <- m ;; k" := (bind m (fun x => k))
  (at level 61, m at next level, right associativity).
Notation "m ;;; k" := (bind m (fun _ => k))
  (at level 61, right associativity).

Fixpoint mapM {A B} (f : A -> M B) (xs : list A) : M (list B) :=
  match xs with
  | [] => ret []
  | x :: xs' => b <- f x ;; bs <- mapM f xs' ;; ret (b :: bs)
  end.

(** [d[k]] *)
Definition getitem {V} (d : dict V) (k : string) : M V :=
  match get d k with
  | Some v => ret v
  | None => raise (KeyError k)
  end.

(** [np.random.seed(seed)]: the seed must fit 32 bits. *)
Definition np_random_seed (seed : Z) : M unit :=
  fun w =>
    if ((0 <=? seed) && (seed <? 2 ^ 32))%Z
    then (Ok tt, {| rng := rs_seed seed; trace := (trace w ++ [Seeded seed])%list |})
    else (Raise (ValueError "Seed must be between 0 and 2**32 - 1"), w).

Definition draw (d : dist) : M Q :=
  fun w =>
    (Ok (fst (sample d (rng w))),
     {| rng := snd (sample d (rng w));
        trace := (trace w ++ [Drew d (fst (sample d (rng w)))])%list |}).

(** [np.random.uniform(low, high)] *)
Definition np_random_uniform (low high : Q) : M Q := draw (Uniform low high).

(** [np.random.normal(loc, scale)] *)
Definition np_random_normal (loc scale : Q) : M Q := draw (Normal loc scale).

(** The expression
    [np.random.uniform(low, high) * scenario_multiplier[scenario] * time_multiplier[timeframe]]
    that lines 131-139 repeat: the draw comes first, then the two
    subscripts, left to right. *)
Definition scaled_uniform (low high : Q) (scenario timeframe : string) : M Q :=
  u <- np_random_uniform low high ;;
  s <- getitem scenario_multiplier scenario ;;
  t <- getitem time_multiplier timeframe ;;
  ret (u * s * t).

(** Lines 106-142, without the decorator. *)
Definition generate_climate_data (country region timeframe scenario : string)
  : M (dict Q) :=
  let seed :=
    (hash (country ++ "_" ++ region ++ "_" ++ timeframe ++ "_" ++ scenario)
       mod 10000)%Z in
  np_random_seed seed ;;;
  s <- getitem scenario_multiplier scenario ;;
  t <- getitem time_multiplier timeframe ;;
  let base_economic_loss := len region * 2.5 * s * t in
  n <- np_random_normal 0 0.2 ;;
  let economic_loss := round (base_economic_loss * (1 + n)) 2 in
  temperature <- scaled_uniform 0.5 4.5 scenario timeframe ;;
  precipitation <- scaled_uniform (-30) 20 scenario timeframe ;;
  sea_level <- scaled_uniform 10 80 scenario timeframe ;;
  drought <- scaled_uniform 0 100 scenario timeframe ;;
  flood <- scaled_uniform 0 100 scenario timeframe ;;
  yield <- scaled_uniform (-30) 5 scenario timeframe ;;
  health <- scaled_uniform 0 100 scenario timeframe ;;
  water <- scaled_uniform 0 100 scenario timeframe ;;
  ret [ ("Temperature Increase", round temperature 1);
        ("Precipitation Change", round precipitation 1);
        ("Sea Level Rise", round sea_level 1);
        ("Drought Risk", round (drought / 100) 2);
        ("Flood Risk", round (flood / 100) 2);
        ("Agricultural Yield Change", round yield 1);
        ("Economic Loss (billion USD)", max 0.1 economic_loss);
        ("Health Impact Index", round (health / 100) 2);
        ("Water Stress Index", round (water / 100) 2) ].

(** Lines 111-142: what [generate_climate_data] runs once line 109 has
    reseeded the generator. *)
Definition climate_after_seeding (region timeframe scenario : string)
  : M (dict Q) :=
  s <- getitem scenario_multiplier scenario ;;
  t <- getitem time_multiplier timeframe ;;
  let base_economic_loss := len region * 2.5 * s * t in
  n <- np_random_normal 0 0.2 ;;
  let economic_loss := round (base_economic_loss * (1 + n)) 2 in
  temperature <- scaled_uniform 0.5 4.5 scenario timeframe ;;
  precipitation <- scaled_uniform (-30) 20 scenario timeframe ;;
  sea_level <- scaled_uniform 10 80 scenario timeframe ;;
  drought <- scaled_uniform 0 100 scenario timeframe ;;
  flood <- scaled_uniform 0 100 scenario timeframe ;;
  yield <- scaled_uniform (-30) 5 scenario timeframe ;;
  health <- scaled_uniform 0 100 scenario timeframe ;;
  water <- scaled_uniform 0 100 scenario timeframe ;;
  ret [ ("Temperature Increase", round temperature 1);
        ("Precipitation Change", round precipitation 1);
        ("Sea Level Rise", round sea_level 1);
        ("Drought Risk", round (drought / 100) 2);
        ("Flood Risk", round (flood / 100) 2);
        ("Agricultural Yield Change", round yield 1);
        ("Economic Loss (billion USD)", max 0.1 economic_loss);
        ("Health Impact Index", round (health / 100) 2);
        ("Water Stress Index", round (water / 100) 2) ].

(** A call of [generate_climate_data] during which another thread of the
    process (another Streamlit session) makes one draw from the
    module-level generator, after line 109 and before line 127. *)
Definition interleaved_generate_climate_data (foreign : dist)
    (country region timeframe scenario : string) : M (dict Q) :=
  let seed :=
    (hash (country ++ "_" ++ region ++ "_" ++ timeframe ++ "_" ++ scenario)
       mod 10000)%Z in
  np_random_seed seed ;;;
  draw foreign ;;;
  climate_after_seeding region timeframe scenario.

(** One element of each list comprehension of lines 163-166.  Operands
    are evaluated left to right: in [Economic Impact] the subscript
    precedes the draw, in the other three the draw precedes it. *)
Definition temperature_change (scenario : string) (year : Z) : M Q :=
  u <- np_random_uniform 0.1 0.5 ;;
  m <- getitem scenario_multiplier scenario ;;
  ret (round (u * m * inject_Z (year - 2020) / 10) 2).

Definition economic_impact (region scenario : string) (year : Z) : M Q :=
  m <- getitem scenario_multiplier scenario ;;
  n <- np_random_normal 0 0.1 ;;
  ret (round (len region * 0.2 * m * inject_Z (year - 2020) / 10 * (1 + n)) 2).

Definition agricultural_yield (scenario : string) (year : Z) : M Q :=
  u <- np_random_uniform 0.5 2.0 ;;
  m <- getitem scenario_multiplier scenario ;;
  ret (round (100 - u * m * inject_Z (year - 2020) / 10) 1).

Definition water_availability (scenario : string) (year : Z) : M Q :=
  u <- np_random_uniform 0.2 1.5 ;;
  m <- getitem scenario_multiplier scenario ;;
  ret (round (100 - u * m * inject_Z (year - 2020) / 10) 1).

(** Lines 146-169, without the decorator.  Each of the four list
    comprehensions runs over all the years before the next one starts. *)
Definition generate_time_series (country region scenario : string)
    (start_year end_year : Z) : M DataFrame :=
  let years := range start_year (end_year + 1) 10 in
  let seed :=
    (hash (country ++ "_" ++ region ++ "_" ++ scenario ++ "_timeseries")
       mod 10000)%Z in
  np_random_seed seed ;;;
  temperature <- mapM (temperature_change scenario) years ;;
  economic <- mapM (economic_impact region scenario) years ;;
  yield <- mapM (agricultural_yield scenario) years ;;
  water <- mapM (water_availability scenario) years ;;
  lift (pd_DataFrame
          [ ("Year", IntCol years);
            ("Temperature Change", FloatCol temperature);
            ("Economic Impact", FloatCol economic);
            ("Agricultural Yield", FloatCol yield);
            ("Water Availability", FloatCol water) ]).

(** ** The decorator and the process *)

(** [@st.cache_data]: results are memoised by argument tuple; a call that
    raises stores nothing. *)
Definition memo (K V : Type) : Type := list (K * V).

Fixpoint memo_get {K V} (eqb : K -> K -> bool) (c : memo K V) (k : K)
  : option V :=
  match c with
  | [] => None
  | (k', v) :: c' => if eqb k k' then Some v else memo_get eqb c' k
  end.

Definition cache_data {K V} (eqb : K -> K -> bool) (f : K -> M V) (k : K)
    (c : memo K V) (w : world) : result V * (memo K V * world) :=
  match memo_get eqb c k with
  | Some v => (Ok v, (c, w))
  | None =>
      match f k w with
      | (Ok v, w') => (Ok v, ((k, v) :: c, w'))
      | (Raise e, w') => (Raise e, (c, w'))
      end
  end.

Definition climate_args : Type := string * string * string * string.
Definition series_args : Type := string * string * string * Z * Z.

Definition climate_args_eqb (a b : climate_args) : bool :=
  let '(c1, r1, t1, s1) := a in
  let '(c2, r2, t2, s2) := b in
  String.eqb c1 c2 && String.eqb r1 r2 && String.eqb t1 t2 && String.eqb s1 s2.

Definition series_args_eqb (a b : series_args) : bool :=
  let '(c1, r1, s1, y1, z1) := a in
  let '(c2, r2, s2, y2, z2) := b in
  String.eqb c1 c2 && String.eqb r1 r2 && String.eqb s1 s2
  && Z.eqb y1 y2 && Z.eqb z1 z2.

Definition climate_body (a : climate_args) : M (dict Q) :=
  let '(country, region, timeframe, scenario) := a in
  generate_climate_data country region timeframe scenario.

Definition series_body (a : series_args) : M DataFrame :=
  let '(country, region, scenario, start_year, end_year) := a in
  generate_time_series country region scenario start_year end_year.

(** Everything that survives from one call to the next: the module-level
    generator and the two memo tables. *)
Record process : Type := {
  globals : world;
  climate_memo : memo climate_args (dict Q);
  series_memo : memo series_args DataFrame
}.

Inductive call : Type :=
| CallClimate (a : climate_args)
| CallSeries (a : series_args).

Inductive value : Type :=
| Snapshot (data : dict Q)
| Frame (df : DataFrame).

Definition result_map {A B} (f : A -> B) (r : result A) : result B :=
  match r with Ok a => Ok (f a) | Raise e => Raise e end.

(** A call of the decorated function, as the script makes it (lines 172,
    173, 321-329). *)
Definition run_call (c : call) (p : process) : result value * process :=
  match c with
  | CallClimate a =>
      let '(r, (m, w)) :=
        cache_data climate_args_eqb climate_body a (climate_memo p) (globals p) in
      (result_map Snapshot r,
       {| globals := w; climate_memo := m; series_memo := series_memo p |})
  | CallSeries a =>
      let '(r, (m, w)) :=
        cache_data series_args_eqb series_body a (series_memo p) (globals p) in
      (result_map Frame r,
       {| globals := w; climate_memo := climate_memo p; series_memo := m |})
  end.

Fixpoint run_calls (cs : list call) (p : process) : process :=
  match cs with
  | [] => p
  | c :: cs' => run_calls cs' (snd (run_call c p))
  end.

(** A process that has made no call yet. *)
Definition fresh (w : world) : process :=
  {| globals := w; climate_memo := []; series_memo := [] |}.

(** The seeds of lines 108 and 150. *)
Definition climate_seed (country region timeframe scenario : string) : Z :=
  (hash (country ++ "_" ++ region ++ "_" ++ timeframe ++ "_" ++ scenario)
     mod 10000)%Z.

Definition series_seed (country region scenario : string) : Z :=
  (hash (country ++ "_" ++ region ++ "_" ++ scenario ++ "_timeseries")
     mod 10000)%Z.

(** What a computation appended to the trace. *)
Definition new_events (w w' : world) : list event :=
  skipn (List.length (trace w)) (trace w').

(** [m] reads nothing of the world but the generator state. *)
Definition oblivious {A} (m : M A) : Prop :=
  forall w w', rng w = rng w' ->
    fst (m w) = fst (m w') /\ rng (snd (m w)) = rng (snd (m w')).

(** Every stored entry is what the undecorated function returns, from any
    world. *)
Definition memo_sound {K V} (eqb : K -> K -> bool) (f : K -> M V)
    (c : memo K V) : Prop :=
  forall k v, memo_get eqb c k = Some v -> forall w, fst (f k w) = Ok v.

Definition process_sound (p : process) : Prop :=
  memo_sound climate_args_eqb climate_body (climate_memo p)
  /\ memo_sound series_args_eqb series_body (series_memo p).

(** What a call returns when nothing is cached, from world [w]. *)
Definition denote (c : call) (w : world) : result value :=
  match c with
  | CallClimate a => result_map Snapshot (fst (climate_body a w))
  | CallSeries a => result_map Frame (fst (series_body a w))
  end.

End Generators.

(** ** The script around the generators *)

(** [a < b] on numbers. *)
Definition Qltb (a b : Q) : bool := negb (Qle_bool b a).

(** [d[k]] where no state is involved. *)
Definition subscript {V} (d : dict V) (k : string) : result V :=
  match get d k with
  | Some v => Ok v
  | None => Raise (KeyError k)
  end.

Definition and_then {A B} (r : result A) (k : A -> result B) : result B :=
  match r with
  | Ok a => k a
  | Raise e => Raise e
  end.

(** Lines 74-77: the regions the sidebar offers for a country. *)
Definition region_options (selected_country : string) : list string :=
  match get region_list selected_country with
  | Some regions => regions
  | None => [fallback_region]
  end.

(** Line 316: the regions of the cross-region chart; [[:4]] keeps the
    first four. *)
Definition comparison_regions (selected_country : string) : list string :=
  match get region_list selected_country with
  | Some regions => firstn 4 regions
  | None => ["Region A"; "Region B"; "Region C"]
  end.

(** Lines 248-279: the subscripts the three sector panels evaluate, in
    order, and the warning boxes they add. *)
Definition food_warning : string :=
  "<div class='warning-box'>Significant food security risk.</div>".
Definition water_warning : string :=
  "<div class='warning-box'>Critical water scarcity expected.</div>".
Definition health_warning : string :=
  "<div class='warning-box'>Increased disease burden expected.</div>".

Definition sector_warnings (risk_data : dict Q) : result (list string) :=
  and_then (subscript risk_data "Agricultural Yield Change") (fun yield =>
  and_then (subscript risk_data "Water Stress Index") (fun water =>
  and_then (subscript risk_data "Health Impact Index") (fun health =>
  Ok ((if Qltb yield (-15) then [food_warning] else [])
      ++ (if Qltb 0.6 water then [water_warning] else [])
      ++ (if Qltb 0.5 health then [health_warning] else []))%list))).

Section Script.
Context `{RS : RandomState} `{SH : StrHash}.

(** Script-level computations: they read and write the whole process. *)
Definition P (A : Type) : Type := process -> result A * process.

Definition retP {A} (a : A) : P A := fun p => (Ok a, p).

Definition bindP {A B} (m : P A) (k : A -> P B) : P B :=
  fun p =>
    match m p with
    | (Ok a, p') => k a p'
    | (Raise e, p') => (Raise e, p')
    end.

Fixpoint mapP {A B} (f : A -> P B) (xs : list A) : P (list B) :=
  match xs with
  | [] => retP []
  | x :: xs' =>
      bindP (f x) (fun b => bindP (mapP f xs') (fun bs => retP (b :: bs)))
  end.

(** The name [generate_climate_data] as the script sees it: the decorated
    function. *)
Definition cached_generate_climate_data
    (country region timeframe scenario : string) : P (dict Q) :=
  fun p =>
    let x := cache_data climate_args_eqb climate_body
               (country, region, timeframe, scenario)
               (climate_memo p) (globals p) in
    (fst x,
     {| globals := snd (snd x); climate_memo := fst (snd x);
        series_memo := series_memo p |}).

(** The name [generate_time_series] as the script sees it. *)
Definition cached_generate_time_series
    (country region scenario : string) (start_year end_year : Z) : P DataFrame :=
  fun p =>
    let x := cache_data series_args_eqb series_body
               (country, region, scenario, start_year, end_year)
               (series_memo p) (globals p) in
    (fst x,
     {| globals := snd (snd x); climate_memo := climate_memo p;
        series_memo := fst (snd x) |}).

(** One list comprehension of lines 320-331: a call and a subscript per
    region. *)
Definition comparison_column (key : string)
    (selected_country selected_timeframe selected_scenario : string)
    (regions : list string) : P (list Q) :=
  mapP (fun region =>
          bindP (cached_generate_climate_data selected_country region
                   selected_timeframe selected_scenario)
                (fun data => fun p => (subscript data key, p)))
       regions.

(** The dict of lines 318-332, one field per key. *)
Record comparison : Type := {
  cmp_Region : list string;
  cmp_Economic_Loss : list Q;
  cmp_Temperature_Increase : list Q;
  cmp_Agricultural_Impact : list Q
}.

Definition comparison_data
    (selected_country selected_timeframe selected_scenario : string)
  : P comparison :=
  let regions := comparison_regions selected_country in
  bindP (comparison_column "Economic Loss (billion USD)" selected_country
           selected_timeframe selected_scenario regions) (fun economic =>
  bindP (comparison_column "Temperature Increase" selected_country
           selected_timeframe selected_scenario regions) (fun temperature =>
  bindP (comparison_column "Agricultural Yield Change" selected_country
           selected_timeframe selected_scenario regions) (fun agricultural =>
  retP {| cmp_Region := regions;
          cmp_Economic_Loss := economic;
          cmp_Temperature_Increase := temperature;
          cmp_Agricultural_Impact := agricultural |}))).

(** The generator keeps every uniform sample between its bounds. *)
Definition uniform_in_range : Prop :=
  forall low high g, low <= high -> low <= fst (rs_uniform low high g) <= high.

(** The reseedings among some trace entries. *)
Definition seedings (t : list event) : nat :=
  List.length (filter (fun e => match e with Seeded _ => true | _ => false end) t).

End Script.

(** ** The index formula in binary64

    Where a statement turns on the rounding of the arithmetic itself, the
    formula of lines 134, 135, 138 and 139 is also given on IEEE binary64
    numbers, as CPython evaluates it.  [round(x, 2)] on a float takes the
    exact value of [x], rounds it to two decimals, ties to even, and
    returns the float nearest to that decimal. *)
Module Binary64.

(** The exact value of a finite float. *)
Definition exact (x : float) : Q :=
  match Prim2SF x with
  | S754_finite sign m e =>
      (if sign then -1 else 1) * inject_Z (Zpos m) * Qpower 2 e
  | _ => 0
  end.

(** The float nearest to an integer below 2^53. *)
Definition of_Z (z : Z) : float :=
  if (z <? 0)%Z
  then PrimFloat.opp (PrimFloat.of_uint63 (Uint63.of_Z (- z)))
  else PrimFloat.of_uint63 (Uint63.of_Z z).

(** [round(x, ndigits)] on a finite float: the division of two exact
    integers is correctly rounded. *)
Definition round (x : float) (ndigits : nat) : float :=
  PrimFloat.div (of_Z (round_half_even (exact x * pow10 ndigits)))
                (of_Z (10 ^ Z.of_nat ndigits)).

(** [round(u * scenario_multiplier[scenario] * time_multiplier[timeframe] / 100, 2)] *)
Definition index (u s t : float) : float :=
  round (PrimFloat.div (PrimFloat.mul (PrimFloat.mul u s) t) (of_Z 100)) 2.

(** The literals [0.7], [0.8] and [0.56] as Python reads them: the
    nearest floats. *)
Definition f0_7 : float := PrimFloat.div (of_Z 7) (of_Z 10).
Definition f0_8 : float := PrimFloat.div (of_Z 8) (of_Z 10).
Definition f0_56 : float := PrimFloat.div (of_Z 56) (of_Z 100).
Definition f99_5 : float := PrimFloat.div (of_Z 995) (of_Z 10).

End Binary64.

(** ** A concrete generator and hash

    A linear congruential generator and a polynomial string hash stand in
    for NumPy's generator and CPython's string hash where a statement is
    evaluated on concrete inputs. *)
Module Lcg.

Definition step (g : Z) : Z := ((g * 1103515245 + 12345) mod 2147483648)%Z.

Definition unit_of (g : Z) : Q := Qred (inject_Z g / inject_Z 2147483648).

Definition uniform (low high : Q) (g : Z) : Q * Z :=
  (Qred (low + (high - low) * unit_of (step g)), step g).

(** A bounded stand-in for a normal sample: [loc + scale * z] with [z]
    in [-3, 3]. *)
Definition normal (loc scale : Q) (g : Z) : Q * Z :=
  (Qred (loc + scale * (inject_Z (step g mod 6001 - 3000) / 1000)), step g).

#[export] Instance random_state : RandomState :=
  {| rstate := Z; rs_seed := fun s => s;
     rs_uniform := uniform; rs_normal := normal |}.

Fixpoint poly (s : string) (h : Z) : Z :=
  match s with
  | EmptyString => h
  | String c s' => poly s' ((h * 31 + Z.of_nat (nat_of_ascii c)) mod 2305843009213693951)%Z
  end.

#[export] Instance str_hash : StrHash := {| hash := fun s => poly s 7 |}.

(** The same hash under another salt, as in another Python process. *)
Definition salted_str_hash : StrHash := {| hash := fun s => poly s 8 |}.

Definition w0 : world := {| rng := 0%Z; trace := [] |}.

End Lcg.

(** * Properties *)

(** ** Rounding *)

Lemma round_half_even_le (x : Q) (k : Z) :
  x <= inject_Z k -> (round_half_even x <= k)%Z.
Proof.
  intros Hx. unfold round_half_even.
  assert (Hf : (Qfloor x <= k)%Z).
  { rewrite <- (Qfloor_Z k). now apply Qfloor_resp_le. }
  destruct (Z.eq_dec (Qfloor x) k) as [E | N].
  - assert (Hlow : inject_Z (Qfloor x) <= x) by apply Qfloor_le.
    rewrite E in *.
    assert (Hlt : x - inject_Z k < 1 # 2) by lra.
    rewrite (proj1 (Qlt_alt _ _) Hlt). lia.
  - destruct (Qcompare _ _); try destruct (Z.even _); lia.
Qed.

Lemma round_half_even_ge (x : Q) (k : Z) :
  inject_Z k <= x -> (k <= round_half_even x)%Z.
Proof.
  intros Hx. unfold round_half_even.
  assert (Hf : (k <= Qfloor x)%Z).
  { rewrite <- (Qfloor_Z k). now apply Qfloor_resp_le. }
  destruct (Qcompare _ _); try destruct (Z.even _); lia.
Qed.

Lemma round_half_even_compat (x y : Q) :
  x == y -> round_half_even x = round_half_even y.
Proof.
  intros E. unfold round_half_even.
  rewrite (Qfloor_comp _ _ E).
  assert (E' : x - inject_Z (Qfloor y) == y - inject_Z (Qfloor y))
    by (rewrite E; reflexivity).
  now rewrite (Qcompare_comp _ _ E' _ _ (Qeq_refl (1 # 2))).
Qed.

Lemma round_compat (x y : Q) (nd : nat) : x == y -> round x nd = round y nd.
Proof.
  intros E. unfold round.
  rewrite (round_half_even_compat (x * pow10 nd) (y * pow10 nd)); [reflexivity|].
  now rewrite E.
Qed.

Lemma pow10_pos (nd : nat) : 0 < pow10 nd.
Proof.
  unfold pow10. change 0 with (inject_Z 0). rewrite <- Zlt_Qlt.
  apply Z.pow_pos_nonneg; lia.
Qed.

(** A rounded value stays on the same side of every point of the decimal
    grid it is rounded to. *)
Lemma round_le_grid (x : Q) (nd : nat) (k : Z) :
  x * pow10 nd <= inject_Z k -> round x nd <= inject_Z k / pow10 nd.
Proof.
  intros H. unfold round. rewrite Qred_correct.
  pose proof (pow10_pos nd) as Hp.
  unfold Qdiv. apply Qmult_le_compat_r.
  - rewrite <- Zle_Qle. now apply round_half_even_le.
  - apply Qinv_le_0_compat. lra.
Qed.

Lemma round_ge_grid (x : Q) (nd : nat) (k : Z) :
  inject_Z k <= x * pow10 nd -> inject_Z k / pow10 nd <= round x nd.
Proof.
  intros H. unfold round. rewrite Qred_correct.
  pose proof (pow10_pos nd) as Hp.
  unfold Qdiv. apply Qmult_le_compat_r.
  - rewrite <- Zle_Qle. now apply round_half_even_ge.
  - apply Qinv_le_0_compat. lra.
Qed.

Lemma max_lower (a b : Q) : a <= max a b.
Proof.
  unfold max. destruct (Qle_bool b a) eqn:E; [apply Qle_refl|].
  destruct (Qlt_le_dec a b) as [L | L]; [now apply Qlt_le_weak|].
  apply Qle_bool_iff in L. congruence.
Qed.

Section Properties.
Context `{RS : RandomState} `{SH : StrHash}.

(** ** Computations that do not look at the trace *)

Lemma oblivious_ret {A} (a : A) : oblivious (ret a).
Proof. intros w w' E. now split. Qed.

Lemma oblivious_raise {A} (e : exn) : oblivious (@raise _ A e).
Proof. intros w w' E. now split. Qed.

Lemma oblivious_lift {A} (r : result A) : oblivious (lift r).
Proof. intros w w' E. now split. Qed.

Lemma oblivious_bind {A B} (m : M A) (k : A -> M B) :
  oblivious m -> (forall a, oblivious (k a)) -> oblivious (bind m k).
Proof.
  intros Hm Hk w w' E. unfold bind.
  destruct (Hm w w' E) as [E1 E2].
  destruct (m w) as [[a | e] w1], (m w') as [[a' | e'] w1'];
    simpl in *; try discriminate.
  - injection E1 as ->. now apply Hk.
  - injection E1 as ->. now split.
Qed.

Lemma oblivious_draw (d : dist) : oblivious (draw d).
Proof. intros w w' E. unfold draw. simpl. now rewrite E. Qed.

Lemma oblivious_getitem {V} (d : dict V) (k : string) : oblivious (getitem d k).
Proof.
  unfold getitem. destruct (get d k); [apply oblivious_ret | apply oblivious_raise].
Qed.

Lemma oblivious_mapM {A B} (f : A -> M B) (xs : list A) :
  (forall x, oblivious (f x)) -> oblivious (mapM f xs).
Proof.
  intros Hf. induction xs as [| x xs IH]; simpl.
  - apply oblivious_ret.
  - apply oblivious_bind; [apply Hf|]. intros b.
    apply oblivious_bind; [exact IH|]. intros bs. apply oblivious_ret.
Qed.

Create HintDb oblivious.
#[local] Hint Resolve oblivious_ret oblivious_raise oblivious_lift
  oblivious_draw oblivious_getitem : oblivious.

Ltac oblivious :=
  repeat first
    [ progress auto with oblivious
    | apply oblivious_bind; [| intros ?]
    | apply oblivious_mapM; intros ? ].

(** Reseeding first makes the rest independent of the whole world. *)
Lemma seed_then_independent {A} (seed : Z) (k : M A) :
  oblivious k ->
  forall w w', fst (bind (np_random_seed seed) (fun _ => k) w)
             = fst (bind (np_random_seed seed) (fun _ => k) w').
Proof.
  intros Hk w w'. unfold bind, np_random_seed.
  destruct ((0 <=? seed)%Z && (seed <? 2 ^ 32)%Z); [|reflexivity].
  now apply Hk.
Qed.

Lemma generate_climate_data_independent country region timeframe scenario w w' :
  fst (generate_climate_data country region timeframe scenario w)
  = fst (generate_climate_data country region timeframe scenario w').
Proof.
  unfold generate_climate_data. apply seed_then_independent.
  unfold scaled_uniform, np_random_uniform, np_random_normal. oblivious.
Qed.

Lemma generate_time_series_independent country region scenario y z w w' :
  fst (generate_time_series country region scenario y z w)
  = fst (generate_time_series country region scenario y z w').
Proof.
  unfold generate_time_series. apply seed_then_independent.
  unfold temperature_change, economic_impact, agricultural_yield,
    water_availability, np_random_uniform, np_random_normal.
  oblivious.
Qed.

(** ** The memo tables *)

Lemma climate_args_eqb_eq (a b : climate_args) :
  climate_args_eqb a b = true -> a = b.
Proof.
  destruct a as [[[c1 r1] t1] s1], b as [[[c2 r2] t2] s2]. simpl.
  rewrite !andb_true_iff, !String.eqb_eq. intuition congruence.
Qed.

Lemma series_args_eqb_eq (a b : series_args) :
  series_args_eqb a b = true -> a = b.
Proof.
  destruct a as [[[[c1 r1] s1] y1] z1], b as [[[[c2 r2] s2] y2] z2]. simpl.
  rewrite !andb_true_iff, !String.eqb_eq, !Z.eqb_eq. intuition congruence.
Qed.

Lemma cache_data_sound {K V} (eqb : K -> K -> bool) (f : K -> M V)
    (k : K) (c : memo K V) (w : world) :
  (forall a b, eqb a b = true -> a = b) ->
  (forall a w1 w2, fst (f a w1) = fst (f a w2)) ->
  memo_sound eqb f c ->
  fst (cache_data eqb f k c w) = fst (f k w)
  /\ memo_sound eqb f (fst (snd (cache_data eqb f k c w))).
Proof.
  intros Heq Hind Hc. unfold cache_data.
  destruct (memo_get eqb c k) as [v |] eqn:G; simpl.
  - split; [symmetry; now apply Hc | exact Hc].
  - destruct (f k w) as [[v | e] w1] eqn:F; simpl; split; auto.
    intros k' v' G' w2. simpl in G'.
    destruct (eqb k' k) eqn:E.
    + apply Heq in E. subst k'. injection G' as <-.
      rewrite (Hind k w2 w), F. reflexivity.
    + now apply Hc.
Qed.

Lemma climate_body_independent a w w' :
  fst (climate_body a w) = fst (climate_body a w').
Proof.
  destruct a as [[[c r] t] s]. apply generate_climate_data_independent.
Qed.

Lemma series_body_independent a w w' :
  fst (series_body a w) = fst (series_body a w').
Proof.
  destruct a as [[[[c r] s] y] z]. apply generate_time_series_independent.
Qed.

Lemma denote_independent c w w' : denote c w = denote c w'.
Proof.
  destruct c; simpl; f_equal;
    [apply climate_body_independent | apply series_body_independent].
Qed.

Lemma run_call_sound (c : call) (p : process) :
  process_sound p ->
  fst (run_call c p) = denote c (globals p) /\ process_sound (snd (run_call c p)).
Proof.
  intros [Hc Hs]. destruct c as [a | a]; simpl.
  - pose proof (cache_data_sound climate_args_eqb climate_body a
                  (climate_memo p) (globals p) climate_args_eqb_eq
                  climate_body_independent Hc) as [E S].
    destruct (cache_data _ _ _ _ _) as [r [m w]]; simpl in *.
    rewrite E. split; [reflexivity | split; assumption].
  - pose proof (cache_data_sound series_args_eqb series_body a
                  (series_memo p) (globals p) series_args_eqb_eq
                  series_body_independent Hs) as [E S].
    destruct (cache_data _ _ _ _ _) as [r [m w]]; simpl in *.
    rewrite E. split; [reflexivity | split; assumption].
Qed.

Lemma run_calls_sound (cs : list call) (p : process) :
  process_sound p -> process_sound (run_calls cs p).
Proof.
  revert p. induction cs as [| c cs IH]; intros p Hp; simpl; [exact Hp|].
  apply IH. now apply run_call_sound.
Qed.

Lemma fresh_sound (w : world) : process_sound (fresh w).
Proof. split; intros k v G; discriminate. Qed.

(** ** Running [generate_climate_data] *)

Lemma seed_in_range (h : Z) :
  ((0 <=? h mod 10000) && (h mod 10000 <? 2 ^ 32))%Z = true.
Proof.
  pose proof (Z.mod_pos_bound h 10000 ltac:(lia)).
  apply andb_true_iff. split; [apply Z.leb_le | apply Z.ltb_lt]; lia.
Qed.

Lemma new_events_app (w w' : world) (es : list event) :
  trace w' = (trace w ++ es)%list -> new_events w w' = es.
Proof.
  intros E. unfold new_events. rewrite E.
  rewrite skipn_app, skipn_all, Nat.sub_diag. reflexivity.
Qed.

(** With both keys in the tables, the call returns: the metrics are the
    source's formulas over the values of [stream climate_draws], and the
    world is reseeded and advanced by exactly those draws. *)
Lemma generate_climate_data_run country region timeframe scenario s t w :
  get scenario_multiplier scenario = Some s ->
  get time_multiplier timeframe = Some t ->
  let seed := climate_seed country region timeframe scenario in
  let v := fun i => nth i (stream climate_draws (rs_seed seed)) 0 in
  generate_climate_data country region timeframe scenario w
  = (Ok [ ("Temperature Increase", round (v 1%nat * s * t) 1);
          ("Precipitation Change", round (v 2%nat * s * t) 1);
          ("Sea Level Rise", round (v 3%nat * s * t) 1);
          ("Drought Risk", round (v 4%nat * s * t / 100) 2);
          ("Flood Risk", round (v 5%nat * s * t / 100) 2);
          ("Agricultural Yield Change", round (v 6%nat * s * t) 1);
          ("Economic Loss (billion USD)",
            max 0.1 (round (len region * 2.5 * s * t * (1 + v 0%nat)) 2));
          ("Health Impact Index", round (v 7%nat * s * t / 100) 2);
          ("Water Stress Index", round (v 8%nat * s * t / 100) 2) ],
     {| rng := after climate_draws (rs_seed seed);
        trace := (trace w ++ Seeded seed :: log_of climate_draws (rs_seed seed))%list |}).
Proof.
  intros Hs Ht seed v.
  unfold generate_climate_data, scaled_uniform, np_random_uniform,
    np_random_normal, np_random_seed, getitem, bind.
  fold (climate_seed country region timeframe scenario). fold seed.
  unfold seed at 1, climate_seed at 1. rewrite seed_in_range.
  rewrite Hs, Ht.
  cbn [ret draw fst snd rng trace].
  unfold ret. f_equal. f_equal.
  repeat rewrite <- app_assoc. reflexivity.
Qed.

Lemma draws_log_of (ds : list dist) (g : rstate) : draws (log_of ds g) = ds.
Proof.
  revert g. induction ds as [| d ds IH]; intros g; simpl; [reflexivity|].
  now rewrite IH.
Qed.

(** C2.  For a scenario and a timeframe of the tables, the generator is
    seeded with [hash("{country}_{region}_{timeframe}_{scenario}") mod 10000];
    each drawn metric is [round(u * scenario_multiplier * time_multiplier, dp)]
    for the value [u] the generator returned for a uniform request over
    the metric's range (divided by 100 for the four indices), one decimal
    for the quantities and two for the indices; and the snapshot has
    exactly the nine named keys. *)
Theorem point_estimator_formulas country region timeframe scenario s t w :
  get scenario_multiplier scenario = Some s ->
  get time_multiplier timeframe = Some t ->
  let seed :=
    (hash (country ++ "_" ++ region ++ "_" ++ timeframe ++ "_" ++ scenario)
       mod 10000)%Z in
  exists data w' n uT uP uS uD uF uA uH uW,
    generate_climate_data country region timeframe scenario w = (Ok data, w')
    /\ new_events w w'
       = [ Seeded seed; Drew (Normal 0 0.2) n;
           Drew (Uniform 0.5 4.5) uT; Drew (Uniform (-30) 20) uP;
           Drew (Uniform 10 80) uS; Drew (Uniform 0 100) uD;
           Drew (Uniform 0 100) uF; Drew (Uniform (-30) 5) uA;
           Drew (Uniform 0 100) uH; Drew (Uniform 0 100) uW ]
    /\ [n; uT; uP; uS; uD; uF; uA; uH; uW] = stream climate_draws (rs_seed seed)
    /\ keys data
       = [ "Temperature Increase"; "Precipitation Change"; "Sea Level Rise";
           "Drought Risk"; "Flood Risk"; "Agricultural Yield Change";
           "Economic Loss (billion USD)"; "Health Impact Index";
           "Water Stress Index" ]
    /\ get data "Temperature Increase" = Some (round (uT * s * t) 1)
    /\ get data "Precipitation Change" = Some (round (uP * s * t) 1)
    /\ get data "Sea Level Rise" = Some (round (uS * s * t) 1)
    /\ get data "Agricultural Yield Change" = Some (round (uA * s * t) 1)
    /\ get data "Drought Risk" = Some (round (uD / 100 * s * t) 2)
    /\ get data "Flood Risk" = Some (round (uF / 100 * s * t) 2)
    /\ get data "Health Impact Index" = Some (round (uH / 100 * s * t) 2)
    /\ get data "Water Stress Index" = Some (round (uW / 100 * s * t) 2).
Proof.
  intros Hs Ht seed.
  pose proof (generate_climate_data_run country region timeframe scenario
                s t w Hs Ht) as Run.
  cbv zeta in Run. fold (climate_seed country region timeframe scenario) in seed.
  fold seed in Run.
  set (v := fun i => nth i (stream climate_draws (rs_seed seed)) 0) in *.
  eexists _, _, (v 0%nat), (v 1%nat), (v 2%nat), (v 3%nat), (v 4%nat),
    (v 5%nat), (v 6%nat), (v 7%nat), (v 8%nat).
  split; [exact Run|].
  split; [apply new_events_app; reflexivity|].
  split; [reflexivity|].
  split; [reflexivity|].
  repeat split; try reflexivity;
    cbn [get String.eqb Ascii.eqb Bool.eqb]; f_equal; apply round_compat;
    field.
Qed.

(** C3, as the code has it.  For a scenario and a timeframe of the
    tables, the nine draws come from the one generator seeded at the start
    of the call, in this order: the economic-loss [normal(0, 0.2)] draw
    first, then Temperature Increase, Precipitation Change, Sea Level
    Rise, Drought Risk, Flood Risk, Agricultural Yield Change, Health
    Impact Index and Water Stress Index; the [i]-th metric of that order
    is computed from the [i]-th value of the stream. *)
Theorem point_estimator_draw_order country region timeframe scenario s t w :
  get scenario_multiplier scenario = Some s ->
  get time_multiplier timeframe = Some t ->
  let seed := climate_seed country region timeframe scenario in
  let v := fun i => nth i (stream climate_draws (rs_seed seed)) 0 in
  exists data w',
    generate_climate_data country region timeframe scenario w = (Ok data, w')
    /\ new_events w w' = Seeded seed :: log_of climate_draws (rs_seed seed)
    /\ draws (new_events w w')
       = [ Normal 0 0.2;
           Uniform 0.5 4.5; Uniform (-30) 20; Uniform 10 80;
           Uniform 0 100; Uniform 0 100; Uniform (-30) 5;
           Uniform 0 100; Uniform 0 100 ]
    /\ rng w' = after climate_draws (rs_seed seed)
    /\ get data "Economic Loss (billion USD)"
       = Some (max 0.1 (round (len region * 2.5 * s * t * (1 + v 0%nat)) 2))
    /\ get data "Temperature Increase" = Some (round (v 1%nat * s * t) 1)
    /\ get data "Precipitation Change" = Some (round (v 2%nat * s * t) 1)
    /\ get data "Sea Level Rise" = Some (round (v 3%nat * s * t) 1)
    /\ get data "Drought Risk" = Some (round (v 4%nat * s * t / 100) 2)
    /\ get data "Flood Risk" = Some (round (v 5%nat * s * t / 100) 2)
    /\ get data "Agricultural Yield Change" = Some (round (v 6%nat * s * t) 1)
    /\ get data "Health Impact Index" = Some (round (v 7%nat * s * t / 100) 2)
    /\ get data "Water Stress Index" = Some (round (v 8%nat * s * t / 100) 2).
Proof.
  intros Hs Ht seed v.
  pose proof (generate_climate_data_run country region timeframe scenario
                s t w Hs Ht) as Run.
  cbv zeta in Run. fold seed in Run. fold v in Run.
  eexists _, _. split; [exact Run|].
  assert (New : new_events w
            {| rng := after climate_draws (rs_seed seed);
               trace := (trace w ++ Seeded seed
                           :: log_of climate_draws (rs_seed seed))%list |}
          = Seeded seed :: log_of climate_draws (rs_seed seed))
    by (apply new_events_app; reflexivity).
  split; [exact New|].
  split; [rewrite New; cbn [draws]; apply draws_log_of|].
  repeat split; reflexivity.
Qed.

(** C6.  For a scenario and a timeframe of the tables, Economic Loss is
    [max(0.1, round(len(region) * 2.5 * scenario_multiplier *
    time_multiplier * (1 + n), 2))] for the value [n] of the one
    [normal(0, 0.2)] draw of the call, and is at least 0.1. *)
Theorem economic_loss_floor country region timeframe scenario s t w :
  get scenario_multiplier scenario = Some s ->
  get time_multiplier timeframe = Some t ->
  exists data w' n loss,
    generate_climate_data country region timeframe scenario w = (Ok data, w')
    /\ filter (fun e => match e with Drew d _ => is_normal d | _ => false end)
              (new_events w w')
       = [Drew (Normal 0 0.2) n]
    /\ get data "Economic Loss (billion USD)" = Some loss
    /\ loss = max 0.1 (round (len region * 2.5 * s * t * (1 + n)) 2)
    /\ 0.1 <= loss.
Proof.
  intros Hs Ht.
  pose proof (generate_climate_data_run country region timeframe scenario
                s t w Hs Ht) as Run.
  cbv zeta in Run.
  eexists _, _, _, _. split; [exact Run|].
  split; [erewrite new_events_app by reflexivity; reflexivity|].
  split; [reflexivity|].
  split; [reflexivity|].
  apply max_lower.
Qed.

(** ** The four indices *)

Lemma round_within (x m : Q) (nd : nat) :
  inject_Z (Qfloor (m * pow10 nd)) == m * pow10 nd ->
  0 <= x <= m -> 0 <= round x nd <= m.
Proof.
  intros Hgrid [Hlo Hhi]. pose proof (pow10_pos nd) as Hp. split.
  - assert (L : inject_Z 0 <= x * pow10 nd).
    { change (inject_Z 0) with 0. apply Qmult_le_0_compat; lra. }
    apply round_ge_grid in L.
    assert (Z0 : inject_Z 0 / pow10 nd == 0) by (field; lra).
    rewrite Z0 in L. exact L.
  - assert (U : x * pow10 nd <= inject_Z (Qfloor (m * pow10 nd))).
    { rewrite Hgrid. apply Qmult_le_compat_r; lra. }
    apply round_le_grid in U.
    assert (E : inject_Z (Qfloor (m * pow10 nd)) / pow10 nd == m).
    { rewrite Hgrid. field. lra. }
    rewrite E in U. exact U.
Qed.

Lemma scenario_multiplier_cases scenario s :
  get scenario_multiplier scenario = Some s -> s = 0.7 \/ s = 1.0 \/ s = 1.5.
Proof.
  cbn [get scenario_multiplier].
  repeat (destruct (String.eqb scenario _);
          [intros [= <-]; auto |]).
  discriminate.
Qed.

Lemma time_multiplier_cases timeframe t :
  get time_multiplier timeframe = Some t ->
  t = 0.8 \/ t = 1.0 \/ t = 1.3 \/ t = 1.6.
Proof.
  cbn [get time_multiplier].
  repeat (destruct (String.eqb timeframe _);
          [intros [= <-]; auto |]).
  discriminate.
Qed.

(** The product of two table entries has two decimals, so rounding to
    two decimals cannot cross it. *)
Lemma scaled_index_within s t u :
  (s = 0.7 \/ s = 1.0 \/ s = 1.5) ->
  (t = 0.8 \/ t = 1.0 \/ t = 1.3 \/ t = 1.6) ->
  0 <= u <= 100 ->
  0 <= round (u * s * t / 100) 2 <= s * t.
Proof.
  intros Hs Ht Hu.
  destruct Hs as [-> | [-> | ->]], Ht as [-> | [-> | [-> | ->]]];
    (apply round_within;
     [ vm_compute; reflexivity
     | unfold Qdiv; change (/ 100) with (1 # 100); lra ]).
Qed.

Lemma index_within country region timeframe scenario s t w :
  (forall low high g,
      low <= high -> low <= fst (rs_uniform low high g) <= high) ->
  get scenario_multiplier scenario = Some s ->
  get time_multiplier timeframe = Some t ->
  exists data w',
    generate_climate_data country region timeframe scenario w = (Ok data, w')
    /\ forall name,
         In name [ "Drought Risk"; "Flood Risk"; "Health Impact Index";
                   "Water Stress Index" ] ->
         exists u x,
           In (Drew (Uniform 0 100) u) (new_events w w')
           /\ get data name = Some x
           /\ x = round (u * s * t / 100) 2
           /\ 0 <= x <= s * t.
Proof.
  intros Hrange Hs Ht.
  pose proof (generate_climate_data_run country region timeframe scenario
                s t w Hs Ht) as Run.
  cbv zeta in Run.
  pose proof (scenario_multiplier_cases _ _ Hs) as Cs.
  pose proof (time_multiplier_cases _ _ Ht) as Ct.
  assert (H100 : 0 <= 100) by discriminate.
  eexists _, _. split; [exact Run|].
  erewrite new_events_app by reflexivity.
  set (v := fun i => nth i (stream climate_draws
                 (rs_seed (climate_seed country region timeframe scenario))) 0).
  intros name [<- | [<- | [<- | [<- | []]]]];
    [ exists (v 4%nat) | exists (v 5%nat) | exists (v 7%nat) | exists (v 8%nat) ];
    eexists;
    (split; [cbn; repeat first [left; reflexivity | right] |]);
    (split; [reflexivity|]);
    (split; [reflexivity|]);
    apply scaled_index_within; auto; apply Hrange; exact H100.
Qed.

(** ** Running [generate_time_series] *)

Lemma stream_app (ds es : list dist) (g : rstate) :
  stream (ds ++ es) g = (stream ds g ++ stream es (after ds g))%list.
Proof.
  revert g. induction ds as [| d ds IH]; intros g; simpl; [reflexivity|].
  now rewrite IH.
Qed.

Lemma log_of_app (ds es : list dist) (g : rstate) :
  log_of (ds ++ es) g = (log_of ds g ++ log_of es (after ds g))%list.
Proof.
  revert g. induction ds as [| d ds IH]; intros g; simpl; [reflexivity|].
  now rewrite IH.
Qed.

Lemma after_app (ds es : list dist) (g : rstate) :
  after (ds ++ es) g = after es (after ds g).
Proof.
  revert g. induction ds as [| d ds IH]; intros g; simpl; [reflexivity|].
  now rewrite IH.
Qed.

Lemma stream_length (ds : list dist) (g : rstate) :
  List.length (stream ds g) = List.length ds.
Proof.
  revert g. induction ds as [| d ds IH]; intros g; simpl; [reflexivity|].
  now rewrite IH.
Qed.

(** A list comprehension whose element makes one draw [d] and computes
    [f u year] from its value [u]: the draws are made in the order of
    the years. *)
Lemma mapM_draw (d : dist) (f : Q -> Z -> Q) (op : Z -> M Q) (years : list Z) :
  (forall year w,
      op year w
      = (Ok (f (fst (sample d (rng w))) year),
         {| rng := snd (sample d (rng w));
            trace := (trace w ++ [Drew d (fst (sample d (rng w)))])%list |})) ->
  forall w,
    mapM op years w
    = (Ok (map (fun uy => f (fst uy) (snd uy))
             (combine (stream (repeat d (List.length years)) (rng w)) years)),
       {| rng := after (repeat d (List.length years)) (rng w);
          trace := (trace w ++ log_of (repeat d (List.length years)) (rng w))%list |}).
Proof.
  intros Hop. induction years as [| y ys IH]; intros w.
  - simpl. unfold ret. rewrite app_nil_r. now destruct w.
  - cbn [mapM]. unfold bind at 1. rewrite Hop.
    unfold bind at 1. rewrite IH. unfold ret.
    cbn [rng trace List.length repeat stream after log_of combine map fst snd].
    rewrite <- app_assoc. reflexivity.
Qed.

Lemma temperature_change_run scenario m year w :
  get scenario_multiplier scenario = Some m ->
  temperature_change scenario year w
  = (Ok (round (fst (sample (Uniform 0.1 0.5) (rng w)) * m
                * inject_Z (year - 2020) / 10) 2),
     {| rng := snd (sample (Uniform 0.1 0.5) (rng w));
        trace := (trace w ++ [Drew (Uniform 0.1 0.5)
                                (fst (sample (Uniform 0.1 0.5) (rng w)))])%list |}).
Proof.
  intros Hm. unfold temperature_change, np_random_uniform, getitem, bind, draw.
  now rewrite Hm.
Qed.

Lemma economic_impact_run region scenario m year w :
  get scenario_multiplier scenario = Some m ->
  economic_impact region scenario year w
  = (Ok (round (len region * 0.2 * m * inject_Z (year - 2020) / 10
                * (1 + fst (sample (Normal 0 0.1) (rng w)))) 2),
     {| rng := snd (sample (Normal 0 0.1) (rng w));
        trace := (trace w ++ [Drew (Normal 0 0.1)
                                (fst (sample (Normal 0 0.1) (rng w)))])%list |}).
Proof.
  intros Hm. unfold economic_impact, np_random_normal, getitem, bind, draw.
  now rewrite Hm.
Qed.

Lemma agricultural_yield_run scenario m year w :
  get scenario_multiplier scenario = Some m ->
  agricultural_yield scenario year w
  = (Ok (round (100 - fst (sample (Uniform 0.5 2.0) (rng w)) * m
                      * inject_Z (year - 2020) / 10) 1),
     {| rng := snd (sample (Uniform 0.5 2.0) (rng w));
        trace := (trace w ++ [Drew (Uniform 0.5 2.0)
                                (fst (sample (Uniform 0.5 2.0) (rng w)))])%list |}).
Proof.
  intros Hm. unfold agricultural_yield, np_random_uniform, getitem, bind, draw.
  now rewrite Hm.
Qed.

Lemma water_availability_run scenario m year w :
  get scenario_multiplier scenario = Some m ->
  water_availability scenario year w
  = (Ok (round (100 - fst (sample (Uniform 0.2 1.5) (rng w)) * m
                      * inject_Z (year - 2020) / 10) 1),
     {| rng := snd (sample (Uniform 0.2 1.5) (rng w));
        trace := (trace w ++ [Drew (Uniform 0.2 1.5)
                                (fst (sample (Uniform 0.2 1.5) (rng w)))])%list |}).
Proof.
  intros Hm. unfold water_availability, np_random_uniform, getitem, bind, draw.
  now rewrite Hm.
Qed.

(** The column a list comprehension builds from [n] draws [d] starting at
    state [g]. *)
Lemma column_length (d : dist) (h : Q * Z -> Q) (g : rstate) (years : list Z) :
  List.length
    (map h (combine (stream (repeat d (List.length years)) g) years))
  = List.length years.
Proof.
  rewrite length_map, length_combine, stream_length, repeat_length.
  apply Nat.min_id.
Qed.

(** With the scenario in the table, the call returns a frame of five
    columns of one length; the world is reseeded and advanced by
    [series_draws]. *)
Lemma generate_time_series_run country region scenario m start_year end_year w :
  get scenario_multiplier scenario = Some m ->
  let years := range start_year (end_year + 1) 10 in
  let n := List.length years in
  let seed := series_seed country region scenario in
  let g0 := rs_seed seed in
  let g1 := after (repeat (Uniform 0.1 0.5) n) g0 in
  let g2 := after (repeat (Normal 0 0.1) n) g1 in
  let g3 := after (repeat (Uniform 0.5 2.0) n) g2 in
  let col := fun d g (f : Q -> Z -> Q) =>
    map (fun uy => f (fst uy) (snd uy)) (combine (stream (repeat d n) g) years) in
  generate_time_series country region scenario start_year end_year w
  = (Ok {| columns :=
             [ ("Year", IntCol years);
               ("Temperature Change",
                 FloatCol (col (Uniform 0.1 0.5) g0 (fun u year =>
                   round (u * m * inject_Z (year - 2020) / 10) 2)));
               ("Economic Impact",
                 FloatCol (col (Normal 0 0.1) g1 (fun x year =>
                   round (len region * 0.2 * m * inject_Z (year - 2020) / 10
                          * (1 + x)) 2)));
               ("Agricultural Yield",
                 FloatCol (col (Uniform 0.5 2.0) g2 (fun u year =>
                   round (100 - u * m * inject_Z (year - 2020) / 10) 1)));
               ("Water Availability",
                 FloatCol (col (Uniform 0.2 1.5) g3 (fun u year =>
                   round (100 - u * m * inject_Z (year - 2020) / 10) 1))) ];
           nrows := n |},
     {| rng := after (series_draws n) g0;
        trace := (trace w ++ Seeded seed :: log_of (series_draws n) g0)%list |}).
Proof.
  intros Hm years n seed g0 g1 g2 g3 col.
  unfold generate_time_series. fold years.
  fold (series_seed country region scenario). fold seed.
  unfold bind at 1. unfold np_random_seed.
  unfold seed at 1, series_seed at 1. rewrite seed_in_range.
  unfold bind at 1.
  rewrite (mapM_draw (Uniform 0.1 0.5)
             (fun u year => round (u * m * inject_Z (year - 2020) / 10) 2)
             _ years (fun y w0 => temperature_change_run scenario m y w0 Hm)).
  unfold bind at 1.
  rewrite (mapM_draw (Normal 0 0.1)
             (fun x year => round (len region * 0.2 * m * inject_Z (year - 2020) / 10
                                   * (1 + x)) 2)
             _ years (fun y w0 => economic_impact_run region scenario m y w0 Hm)).
  unfold bind at 1.
  rewrite (mapM_draw (Uniform 0.5 2.0)
             (fun u year => round (100 - u * m * inject_Z (year - 2020) / 10) 1)
             _ years (fun y w0 => agricultural_yield_run scenario m y w0 Hm)).
  unfold bind at 1.
  rewrite (mapM_draw (Uniform 0.2 1.5)
             (fun u year => round (100 - u * m * inject_Z (year - 2020) / 10) 1)
             _ years (fun y w0 => water_availability_run scenario m y w0 Hm)).
  cbn [rng trace].
  unfold lift, pd_DataFrame.
  cbn [forallb snd col_len]. rewrite !column_length, Nat.eqb_refl.
  cbn [andb]. fold n. fold g0. fold g1. fold g2. fold g3.
  f_equal. unfold series_draws.
  rewrite !after_app, !log_of_app. fold g1. fold g2. fold g3.
  f_equal. rewrite <- !app_assoc. reflexivity.
Qed.

(** ** [range] *)

Lemma range_nth (start stop step : Z) (i : nat) :
  (i < List.length (range start stop step))%nat ->
  nth_error (range start stop step) i = Some (start + step * Z.of_nat i)%Z.
Proof.
  unfold range. rewrite length_map, length_seq. intros Hi.
  rewrite nth_error_map, nth_error_seq.
  destruct (Nat.ltb_spec i
              (if (start <? stop)%Z
               then Z.to_nat (1 + (stop - 1 - start) / step) else 0%nat));
    [reflexivity | lia].
Qed.

Lemma range_In (start stop step y : Z) :
  (0 < step)%Z ->
  In y (range start stop step)
  <-> exists k, (0 <= k)%Z /\ y = (start + step * k)%Z /\ (y < stop)%Z.
Proof.
  intros Hstep. unfold range. rewrite in_map_iff. split.
  - intros (i & <- & Hi). apply in_seq in Hi.
    exists (Z.of_nat i). split; [lia|]. split; [reflexivity|].
    destruct (Z.ltb_spec start stop) as [L | L]; [|simpl in Hi; lia].
    assert (0 <= (stop - 1 - start) / step)%Z
      by (apply Z.div_pos; lia).
    assert (Z.of_nat i <= (stop - 1 - start) / step)%Z by lia.
    pose proof (Z.mul_div_le (stop - 1 - start) step Hstep).
    nia.
  - intros (k & Hk & -> & Hlt).
    exists (Z.to_nat k). split; [rewrite Z2Nat.id by lia; reflexivity|].
    apply in_seq.
    assert (L : (start < stop)%Z) by nia.
    apply Z.ltb_lt in L. rewrite L.
    assert (k <= (stop - 1 - start) / step)%Z
      by (apply Z.div_le_lower_bound; lia).
    lia.
Qed.

Lemma nth_error_column (h : Q * Z -> Q) (xs : list Q) (ys : list Z) (i : nat) (y : Z) :
  List.length xs = List.length ys ->
  nth_error ys i = Some y ->
  nth_error (map h (combine xs ys)) i = Some (h (nth i xs 0, y)).
Proof.
  revert ys i. induction xs as [| x xs IH]; intros [| y0 ys] [| i] L E;
    simpl in *; try discriminate.
  - now injection E as ->.
  - apply IH; [lia | exact E].
Qed.

(** ** The series projector *)

(** C5.  With the scenario in the table, the Year column is
    [start_year, start_year + 10, ...], ascending, holding exactly the
    years [start_year + 10 k] that do not exceed [end_year], so
    [end_year] itself when the step reaches it; every metric column has
    the length of the Year column; and the range 2020..2100 gives the
    nine years 2020, 2030, ..., 2100. *)
Theorem series_year_range country region scenario m start_year end_year w :
  get scenario_multiplier scenario = Some m ->
  exists df w',
    generate_time_series country region scenario start_year end_year w
    = (Ok df, w')
    /\ int_col df "Year" = range start_year (end_year + 1) 10
    /\ List.length (int_col df "Year") = nrows df
    /\ (forall i, (i < nrows df)%nat ->
          nth_error (int_col df "Year") i
          = Some (start_year + 10 * Z.of_nat i)%Z)
    /\ (forall y, In y (int_col df "Year")
          <-> exists k, (0 <= k)%Z /\ y = (start_year + 10 * k)%Z
                        /\ (y <= end_year)%Z)
    /\ ((start_year <= end_year)%Z -> ((end_year - start_year) mod 10 = 0)%Z ->
          In end_year (int_col df "Year"))
    /\ List.length (float_col df "Temperature Change") = nrows df
    /\ List.length (float_col df "Economic Impact") = nrows df
    /\ List.length (float_col df "Agricultural Yield") = nrows df
    /\ List.length (float_col df "Water Availability") = nrows df
    /\ (start_year = 2020%Z -> end_year = 2100%Z ->
          int_col df "Year"
          = [2020; 2030; 2040; 2050; 2060; 2070; 2080; 2090; 2100]%Z
          /\ nrows df = 9%nat).
Proof.
  intros Hm.
  pose proof (generate_time_series_run country region scenario m
                start_year end_year w Hm) as Run.
  cbv zeta in Run.
  eexists _, _. split; [exact Run|].
  unfold int_col, float_col. cbn [columns nrows get String.eqb Ascii.eqb Bool.eqb].
  assert (HIn : forall y, In y (range start_year (end_year + 1) 10)
            <-> exists k, (0 <= k)%Z /\ y = (start_year + 10 * k)%Z
                          /\ (y <= end_year)%Z).
  { intros y. rewrite range_In by lia.
    split; intros (k & H0 & -> & Hle); exists k; repeat split; lia. }
  split; [reflexivity|].
  split; [reflexivity|].
  split; [intros i Hi; now apply range_nth|].
  split; [exact HIn|].
  split.
  { intros Hle Hmod. apply HIn.
    exists ((end_year - start_year) / 10)%Z.
    split; [apply Z.div_pos; lia|].
    pose proof (Z.div_mod (end_year - start_year) 10 ltac:(lia)). lia. }
  repeat (split; [apply column_length|]).
  intros -> ->. split; reflexivity.
Qed.

Lemma nth_stream_skip (ds es : list dist) (g : rstate) (i : nat) :
  nth (List.length ds + i) (stream (ds ++ es) g) 0
  = nth i (stream es (after ds g)) 0.
Proof.
  rewrite stream_app, app_nth2; rewrite stream_length; [|lia].
  f_equal. lia.
Qed.

Lemma nth_stream_take (ds es : list dist) (g : rstate) (i : nat) :
  (i < List.length ds)%nat ->
  nth i (stream (ds ++ es) g) 0 = nth i (stream ds g) 0.
Proof.
  intros Hi. rewrite stream_app, app_nth1; [reflexivity|].
  now rewrite stream_length.
Qed.

Lemma nth_skip_repeat (d : dist) (n : nat) (es : list dist) (g : rstate) (i : nat) :
  nth (n + i) (stream (repeat d n ++ es) g) 0
  = nth i (stream es (after (repeat d n) g)) 0.
Proof.
  pose proof (nth_stream_skip (repeat d n) es g i) as H.
  now rewrite repeat_length in H.
Qed.

(** C4, as the code has it.  With the scenario in the table, the draws
    come from the one generator seeded at the start of the call, grouped
    per metric: one draw per year, years ascending, for Temperature
    Change, then one per year for Economic Impact, then for Agricultural
    Yield, then for Water Availability.  Over [n] years, the entry of
    year number [i] is computed from draw [i], [n + i], [2 n + i] and
    [3 n + i] of the stream respectively. *)
Theorem series_draw_order country region scenario m start_year end_year w :
  get scenario_multiplier scenario = Some m ->
  let years := range start_year (end_year + 1) 10 in
  let n := List.length years in
  let seed := series_seed country region scenario in
  let v := fun i => nth i (stream (series_draws n) (rs_seed seed)) 0 in
  exists df w',
    generate_time_series country region scenario start_year end_year w
    = (Ok df, w')
    /\ new_events w w' = Seeded seed :: log_of (series_draws n) (rs_seed seed)
    /\ draws (new_events w w')
       = (repeat (Uniform 0.1 0.5) n ++ repeat (Normal 0 0.1) n
          ++ repeat (Uniform 0.5 2.0) n ++ repeat (Uniform 0.2 1.5) n)%list
    /\ rng w' = after (series_draws n) (rs_seed seed)
    /\ forall i year, nth_error years i = Some year ->
         nth_error (float_col df "Temperature Change") i
         = Some (round (v i * m * inject_Z (year - 2020) / 10) 2)
         /\ nth_error (float_col df "Economic Impact") i
            = Some (round (len region * 0.2 * m * inject_Z (year - 2020) / 10
                           * (1 + v (n + i)%nat)) 2)
         /\ nth_error (float_col df "Agricultural Yield") i
            = Some (round (100 - v (n + n + i)%nat * m
                                 * inject_Z (year - 2020) / 10) 1)
         /\ nth_error (float_col df "Water Availability") i
            = Some (round (100 - v (n + n + n + i)%nat * m
                                 * inject_Z (year - 2020) / 10) 1).
Proof.
  intros Hm years n seed v.
  pose proof (generate_time_series_run country region scenario m
                start_year end_year w Hm) as Run.
  cbv zeta in Run. fold years in Run. fold n in Run. fold seed in Run.
  eexists _, _. split; [exact Run|].
  erewrite new_events_app by reflexivity.
  split; [reflexivity|].
  split; [cbn [draws]; apply draws_log_of|].
  split; [reflexivity|].
  intros i year Hy.
  assert (Hi : (i < n)%nat) by (apply nth_error_Some; congruence).
  assert (Hlen : forall d g, List.length (stream (repeat d n) g) = n)
    by (intros; now rewrite stream_length, repeat_length).
  unfold float_col. cbn [columns get String.eqb Ascii.eqb Bool.eqb].
  unfold v, series_draws.
  repeat split.
  - rewrite (nth_error_column _ _ _ _ _ (Hlen _ _) Hy). cbn [fst snd].
    rewrite nth_stream_take by (now rewrite repeat_length). reflexivity.
  - rewrite (nth_error_column _ _ _ _ _ (Hlen _ _) Hy). cbn [fst snd].
    rewrite nth_skip_repeat.
    rewrite nth_stream_take by (now rewrite repeat_length). reflexivity.
  - rewrite (nth_error_column _ _ _ _ _ (Hlen _ _) Hy). cbn [fst snd].
    rewrite <- Nat.add_assoc. rewrite !nth_skip_repeat.
    rewrite nth_stream_take by (now rewrite repeat_length). reflexivity.
  - rewrite (nth_error_column _ _ _ _ _ (Hlen _ _) Hy). cbn [fst snd].
    rewrite <- !Nat.add_assoc. rewrite !nth_skip_repeat. reflexivity.
Qed.

Lemma round_to (x c : Q) (nd : nat) : x == c -> round c nd = c -> round x nd = c.
Proof. intros E R. now rewrite (round_compat x c nd E). Qed.

(** C10.  With the scenario in the table and the default range
    2020..2100, the first row of the frame is year 2020 with Temperature
    Change 0, Economic Impact 0, Agricultural Yield 100 and Water
    Availability 100, whatever the generator returns; the call still makes
    four draws per row, 36 in all, the first of each metric's nine being
    the one of year 2020. *)
Theorem series_first_point country region scenario m w :
  get scenario_multiplier scenario = Some m ->
  exists df w',
    generate_time_series country region scenario 2020 2100 w = (Ok df, w')
    /\ nth_error (int_col df "Year") 0 = Some 2020%Z
    /\ nth_error (float_col df "Temperature Change") 0 = Some 0
    /\ nth_error (float_col df "Economic Impact") 0 = Some 0
    /\ nth_error (float_col df "Agricultural Yield") 0 = Some 100
    /\ nth_error (float_col df "Water Availability") 0 = Some 100
    /\ nrows df = 9%nat
    /\ List.length (draws (new_events w w')) = (4 * nrows df)%nat
    /\ nth_error (draws (new_events w w')) 0 = Some (Uniform 0.1 0.5)
    /\ nth_error (draws (new_events w w')) 9 = Some (Normal 0 0.1)
    /\ nth_error (draws (new_events w w')) 18 = Some (Uniform 0.5 2.0)
    /\ nth_error (draws (new_events w w')) 27 = Some (Uniform 0.2 1.5).
Proof.
  intros Hm.
  pose proof (generate_time_series_run country region scenario m
                2020 2100 w Hm) as Run.
  cbv zeta in Run.
  change (range 2020 (2100 + 1) 10)
    with [2020; 2030; 2040; 2050; 2060; 2070; 2080; 2090; 2100]%Z in Run.
  eexists _, _. split; [exact Run|].
  erewrite new_events_app by reflexivity.
  cbn [draws]. rewrite draws_log_of.
  unfold int_col, float_col.
  cbn [columns nrows get String.eqb Ascii.eqb Bool.eqb List.length].
  split; [reflexivity|].
  split.
  { cbn [repeat stream combine map nth_error fst snd]. f_equal.
    apply round_to; [|reflexivity].
    change (inject_Z (2020 - 2020)) with 0. field. }
  split.
  { cbn [repeat stream combine map nth_error fst snd]. f_equal.
    apply round_to; [|reflexivity].
    change (inject_Z (2020 - 2020)) with 0. field. }
  split.
  { cbn [repeat stream combine map nth_error fst snd]. f_equal.
    apply round_to; [|reflexivity].
    change (inject_Z (2020 - 2020)) with 0. field. }
  split.
  { cbn [repeat stream combine map nth_error fst snd]. f_equal.
    apply round_to; [|reflexivity].
    change (inject_Z (2020 - 2020)) with 0. field. }
  repeat split.
Qed.

(** ** Failure *)

(** C8, as the code has it.  A scenario outside its table makes the
    point estimator raise [KeyError] on that scenario, and a timeframe
    outside its table makes it raise [KeyError] on that timeframe: no
    default value is substituted.  The country and the region are looked
    up nowhere: with a scenario and a timeframe of the tables the point
    estimator returns a snapshot for every country and region, and with a
    scenario of the table the series projector returns a frame for every
    country, region and year range. *)
Theorem fail_fast :
  (forall country region timeframe scenario w,
      get scenario_multiplier scenario = None ->
      fst (generate_climate_data country region timeframe scenario w)
      = Raise (KeyError scenario))
  /\ (forall country region timeframe scenario s w,
      get scenario_multiplier scenario = Some s ->
      get time_multiplier timeframe = None ->
      fst (generate_climate_data country region timeframe scenario w)
      = Raise (KeyError timeframe))
  /\ (forall country region timeframe scenario s t w,
      get scenario_multiplier scenario = Some s ->
      get time_multiplier timeframe = Some t ->
      is_ok (fst (generate_climate_data country region timeframe scenario w))
      = true)
  /\ (forall country region scenario m start_year end_year w,
      get scenario_multiplier scenario = Some m ->
      is_ok (fst (generate_time_series country region scenario
                    start_year end_year w))
      = true).
Proof.
  repeat split.
  - intros country region timeframe scenario w Hs.
    unfold generate_climate_data, bind, np_random_seed, getitem.
    rewrite seed_in_range, Hs. reflexivity.
  - intros country region timeframe scenario s w Hs Ht.
    unfold generate_climate_data, bind, np_random_seed, getitem.
    rewrite seed_in_range, Hs, Ht. reflexivity.
  - intros country region timeframe scenario s t w Hs Ht.
    pose proof (generate_climate_data_run country region timeframe scenario
                  s t w Hs Ht) as Run.
    cbv zeta in Run. now rewrite Run.
  - intros country region scenario m start_year end_year w Hm.
    pose proof (generate_time_series_run country region scenario m
                  start_year end_year w Hm) as Run.
    cbv zeta in Run. now rewrite Run.
Qed.

Lemma generate_climate_data_split country region timeframe scenario :
  generate_climate_data country region timeframe scenario
  = bind (np_random_seed (climate_seed country region timeframe scenario))
         (fun _ => climate_after_seeding region timeframe scenario).
Proof. reflexivity. Qed.

(** C1, as the code has it.  Within one process, that is for one string
    hash, and for calls made one after the other, both generators are
    deterministic.  Undecorated, each returns the same result from any two
    worlds, whatever the shared module-level generator holds and whatever
    was drawn before, because it reseeds that generator before it draws.
    Decorated, a call returns the same result after any two histories of
    completed calls to either function, in processes started from any two
    worlds; that result is the one the undecorated function computes from
    its arguments and the process's hash. *)
Theorem determinism :
  (forall country region timeframe scenario w w',
      fst (generate_climate_data country region timeframe scenario w)
      = fst (generate_climate_data country region timeframe scenario w'))
  /\ (forall country region scenario start_year end_year w w',
      fst (generate_time_series country region scenario start_year end_year w)
      = fst (generate_time_series country region scenario start_year end_year w'))
  /\ (forall (c : call) (before before' : list call) (w w' : world),
      fst (run_call c (run_calls before (fresh w)))
      = fst (run_call c (run_calls before' (fresh w')))
      /\ fst (run_call c (run_calls before (fresh w))) = denote c w).
Proof.
  split; [intros; apply generate_climate_data_independent|].
  split; [intros; apply generate_time_series_independent|].
  intros c cs cs' w w'.
  destruct (run_call_sound c _ (run_calls_sound cs _ (fresh_sound w))) as [E _].
  destruct (run_call_sound c _ (run_calls_sound cs' _ (fresh_sound w'))) as [E' _].
  rewrite E, E'. split; apply denote_independent.
Qed.

End Properties.

(** * The script around the generators *)

(** ** More on rounding *)

Lemma round_half_even_monotone (x y : Q) :
  x <= y -> (round_half_even x <= round_half_even y)%Z.
Proof.
  intros Hxy. unfold round_half_even.
  pose proof (Qfloor_resp_le x y Hxy) as Hf.
  destruct (Z.eq_dec (Qfloor x) (Qfloor y)) as [E | N].
  - rewrite E.
    destruct (Qcompare_spec (x - inject_Z (Qfloor y)) (1 # 2)) as [Hx | Hx | Hx],
             (Qcompare_spec (y - inject_Z (Qfloor y)) (1 # 2)) as [Hy | Hy | Hy];
      try (destruct (Z.even (Qfloor y))); try lia; exfalso; lra.
  - assert (Qfloor x + 1 <= Qfloor y)%Z by lia.
    destruct (Qcompare (x - _) _), (Qcompare (y - _) _);
      repeat (destruct (Z.even _)); lia.
Qed.

Lemma round_monotone (x y : Q) (nd : nat) : x <= y -> round x nd <= round y nd.
Proof.
  intros Hxy. unfold round. rewrite !Qred_correct.
  pose proof (pow10_pos nd) as Hp.
  unfold Qdiv. apply Qmult_le_compat_r.
  - rewrite <- Zle_Qle. apply round_half_even_monotone.
    apply Qmult_le_compat_r; lra.
  - apply Qinv_le_0_compat. lra.
Qed.

Lemma round_between (x lo hi a b : Q) (nd : nat) :
  lo <= x <= hi -> a <= round lo nd -> round hi nd <= b ->
  (round lo nd <= round x nd <= round hi nd) /\ (a <= round x nd <= b).
Proof.
  intros [Hlo Hhi] Ha Hb.
  pose proof (round_monotone lo x nd Hlo).
  pose proof (round_monotone x hi nd Hhi).
  repeat split; lra.
Qed.

Section ScriptProperties.
Context `{RS : RandomState} `{SH : StrHash}.

(** ** The ranges of the quantities *)

Ltac table_cases Hs Ht :=
  destruct (scenario_multiplier_cases _ _ Hs) as [-> | [-> | ->]];
  destruct (time_multiplier_cases _ _ Ht) as [-> | [-> | [-> | ->]]].

Lemma scaled_quantity_within scenario timeframe s t u lo hi a b :
  get scenario_multiplier scenario = Some s ->
  get time_multiplier timeframe = Some t ->
  lo <= u <= hi ->
  a <= round (lo * 0.7 * 0.8) 1 -> a <= round (lo * 1.5 * 1.6) 1 ->
  round (hi * 0.7 * 0.8) 1 <= b -> round (hi * 1.5 * 1.6) 1 <= b ->
  (round (lo * s * t) 1 <= round (u * s * t) 1 <= round (hi * s * t) 1)
  /\ (a <= round (u * s * t) 1 <= b).
Proof.
  intros Hs Ht Hu Ha1 Ha2 Hb1 Hb2.
  assert (Lo : a <= round (lo * s * t) 1).
  { destruct (Qlt_le_dec lo 0) as [Neg | Pos].
    - apply Qle_trans with (y := round (lo * 1.5 * 1.6) 1); [exact Ha2|].
      apply round_monotone. table_cases Hs Ht; lra.
    - apply Qle_trans with (y := round (lo * 0.7 * 0.8) 1); [exact Ha1|].
      apply round_monotone. table_cases Hs Ht; lra. }
  assert (Hi : round (hi * s * t) 1 <= b).
  { destruct (Qlt_le_dec hi 0) as [Neg | Pos].
    - apply Qle_trans with (y := round (hi * 0.7 * 0.8) 1); [|exact Hb1].
      apply round_monotone. table_cases Hs Ht; lra.
    - apply Qle_trans with (y := round (hi * 1.5 * 1.6) 1); [|exact Hb2].
      apply round_monotone. table_cases Hs Ht; lra. }
  apply round_between; [|exact Lo|exact Hi].
  table_cases Hs Ht; lra.
Qed.

(** X1.  With a generator that keeps uniform samples between their
    bounds, each of the four quantities lies between the rounded images
    of its range's ends under the selection's multipliers.  Over all
    selections Temperature Increase is within [0.3, 10.8], Precipitation
    Change within [-72, 48], Sea Level Rise within [5.6, 192] and
    Agricultural Yield Change within [-72, 12]: temperature and sea level
    always rise. *)
Theorem quantity_ranges country region timeframe scenario s t w :
  uniform_in_range ->
  get scenario_multiplier scenario = Some s ->
  get time_multiplier timeframe = Some t ->
  exists data w' temperature precipitation sea_level yield,
    generate_climate_data country region timeframe scenario w = (Ok data, w')
    /\ get data "Temperature Increase" = Some temperature
    /\ round (0.5 * s * t) 1 <= temperature <= round (4.5 * s * t) 1
    /\ 0.3 <= temperature <= 10.8
    /\ get data "Precipitation Change" = Some precipitation
    /\ round (-30 * s * t) 1 <= precipitation <= round (20 * s * t) 1
    /\ -72 <= precipitation <= 48
    /\ get data "Sea Level Rise" = Some sea_level
    /\ round (10 * s * t) 1 <= sea_level <= round (80 * s * t) 1
    /\ 5.6 <= sea_level <= 192
    /\ get data "Agricultural Yield Change" = Some yield
    /\ round (-30 * s * t) 1 <= yield <= round (5 * s * t) 1
    /\ -72 <= yield <= 12.
Proof.
  intros Hrange Hs Ht.
  pose proof (generate_climate_data_run country region timeframe scenario
                s t w Hs Ht) as Run.
  cbv zeta in Run.
  set (v := fun i => nth i (stream climate_draws
                 (rs_seed (climate_seed country region timeframe scenario))) 0).
  assert (H1 : 0.5 <= v 1%nat <= 4.5) by (apply Hrange; discriminate).
  assert (H2 : -30 <= v 2%nat <= 20) by (apply Hrange; discriminate).
  assert (H3 : 10 <= v 3%nat <= 80) by (apply Hrange; discriminate).
  assert (H6 : -30 <= v 6%nat <= 5) by (apply Hrange; discriminate).
  destruct (scaled_quantity_within scenario timeframe s t _ _ _ 0.3 10.8
              Hs Ht H1) as [A1 B1];
    [vm_compute; discriminate .. |].
  destruct (scaled_quantity_within scenario timeframe s t _ _ _ (-72) 48
              Hs Ht H2) as [A2 B2];
    [vm_compute; discriminate .. |].
  destruct (scaled_quantity_within scenario timeframe s t _ _ _ 5.6 192
              Hs Ht H3) as [A3 B3];
    [vm_compute; discriminate .. |].
  destruct (scaled_quantity_within scenario timeframe s t _ _ _ (-72) 12
              Hs Ht H6) as [A6 B6];
    [vm_compute; discriminate .. |].
  eexists _, _, _, _, _, _. split; [exact Run|].
  cbn [get String.eqb Ascii.eqb Bool.eqb].
  repeat (split; [first [reflexivity | assumption]|]). assumption.
Qed.

(** ** The ranges of the series *)

Lemma stream_uniform_in_range (lo hi : Q) (n i : nat) (g : rstate) :
  uniform_in_range -> lo <= hi -> (i < n)%nat ->
  lo <= nth i (stream (repeat (Uniform lo hi) n) g) 0 <= hi.
Proof.
  intros Hrange Hle. revert i g.
  induction n as [| n IH]; intros i g Hi; [lia|].
  destruct i as [| i]; cbn [repeat stream nth sample].
  - now apply Hrange.
  - apply IH. lia.
Qed.

(** A draw [u] times a multiplier of the table times the decades since
    2020, for a year of 2020..2100. *)
Lemma decade_product_within (scenario : string) (m u lo hi : Q) (year : Z) :
  get scenario_multiplier scenario = Some m ->
  0 <= lo -> lo <= u <= hi -> (2020 <= year <= 2100)%Z ->
  0 <= u * m * inject_Z (year - 2020) / 10 <= hi * 12.
Proof.
  intros Hm Hlo Hu Hy.
  assert (T0 : 0 <= inject_Z (year - 2020))
    by (change 0 with (inject_Z 0); rewrite <- Zle_Qle; lia).
  assert (T1 : inject_Z (year - 2020) <= 80)
    by (change 80 with (inject_Z 80); rewrite <- Zle_Qle; lia).
  set (T := inject_Z (year - 2020)) in *.
  assert (A : 0 <= u * T) by (apply Qmult_le_0_compat; lra).
  assert (B : u * T <= hi * T) by (apply Qmult_le_compat_r; lra).
  assert (C : hi * T <= hi * 80).
  { rewrite (Qmult_comm hi T), (Qmult_comm hi 80).
    apply Qmult_le_compat_r; lra. }
  unfold Qdiv. change (/ 10) with (1 # 10).
  destruct (scenario_multiplier_cases _ _ Hm) as [-> | [-> | ->]]; lra.
Qed.

(** X2.  With a generator that keeps uniform samples between their
    bounds and a scenario of the table, every row of a year in 2020..2100
    has Temperature Change within [0, 6], Agricultural Yield within
    [76, 100] and Water Availability within [82, 100]: over that horizon
    warming is never negative and neither index rises above its 2020
    level of 100 nor falls to zero. *)
Theorem series_ranges country region scenario m start_year end_year w :
  uniform_in_range ->
  get scenario_multiplier scenario = Some m ->
  exists df w',
    generate_time_series country region scenario start_year end_year w
    = (Ok df, w')
    /\ forall i year,
         nth_error (int_col df "Year") i = Some year ->
         (2020 <= year <= 2100)%Z ->
         exists temperature yield water,
           nth_error (float_col df "Temperature Change") i = Some temperature
           /\ 0 <= temperature <= 6
           /\ nth_error (float_col df "Agricultural Yield") i = Some yield
           /\ 76 <= yield <= 100
           /\ nth_error (float_col df "Water Availability") i = Some water
           /\ 82 <= water <= 100.
Proof.
  intros Hrange Hm.
  pose proof (generate_time_series_run country region scenario m
                start_year end_year w Hm) as Run.
  cbv zeta in Run.
  eexists _, _. split; [exact Run|].
  unfold int_col, float_col. cbn [columns get String.eqb Ascii.eqb Bool.eqb].
  intros i year Hy Hyear.
  set (years := range start_year (end_year + 1) 10) in *.
  assert (Hi : (i < List.length years)%nat)
    by (apply nth_error_Some; congruence).
  assert (Hlen : forall d g,
             List.length (stream (repeat d (List.length years)) g)
             = List.length years)
    by (intros; now rewrite stream_length, repeat_length).
  eexists _, _, _.
  split; [apply (nth_error_column _ _ _ _ _ (Hlen _ _) Hy)|]. cbn [fst snd].
  split.
  { pose proof (stream_uniform_in_range 0.1 0.5 (List.length years) i
                  (rs_seed (series_seed country region scenario))
                  Hrange ltac:(discriminate) Hi) as Hu.
    pose proof (decade_product_within scenario m _ 0.1 0.5 year Hm
                  ltac:(discriminate) Hu Hyear) as Hx.
    apply round_between with (lo := 0) (hi := 6);
      [lra | vm_compute; discriminate | vm_compute; discriminate]. }
  split; [apply (nth_error_column _ _ _ _ _ (Hlen _ _) Hy)|]. cbn [fst snd].
  split.
  { match goal with
    | |- _ <= round (100 - nth i (stream _ ?g) 0 * _ * _ / 10) 1 <= _ =>
        pose proof (stream_uniform_in_range 0.5 2.0 (List.length years) i g
                      Hrange ltac:(discriminate) Hi) as Hu
    end.
    pose proof (decade_product_within scenario m _ 0.5 2.0 year Hm
                  ltac:(discriminate) Hu Hyear) as Hx.
    apply round_between with (lo := 76) (hi := 100);
      [lra | vm_compute; discriminate | vm_compute; discriminate]. }
  split; [apply (nth_error_column _ _ _ _ _ (Hlen _ _) Hy)|]. cbn [fst snd].
  match goal with
  | |- _ <= round (100 - nth i (stream _ ?g) 0 * _ * _ / 10) 1 <= _ =>
      pose proof (stream_uniform_in_range 0.2 1.5 (List.length years) i g
                    Hrange ltac:(discriminate) Hi) as Hu
  end.
  pose proof (decade_product_within scenario m _ 0.2 1.5 year Hm
                ltac:(discriminate) Hu Hyear) as Hx.
  apply round_between with (lo := 82) (hi := 100);
    [lra | vm_compute; discriminate | vm_compute; discriminate].
Qed.

(** ** Edge cases of the series projector *)

Lemma range_empty (start stop step : Z) :
  (stop <= start)%Z -> range start stop step = [].
Proof.
  intros H. unfold range.
  destruct (Z.ltb_spec start stop); [lia | reflexivity].
Qed.

Lemma range_cons (start stop step : Z) :
  (0 < step)%Z -> (start < stop)%Z ->
  exists rest, range start stop step = start :: rest.
Proof.
  intros Hstep H. unfold range.
  destruct (Z.ltb_spec start stop); [|lia].
  assert (0 <= (stop - 1 - start) / step)%Z by (apply Z.div_pos; lia).
  destruct (Z.to_nat (1 + (stop - 1 - start) / step)) as [| n] eqn:E; [lia|].
  cbn [seq map]. eexists. f_equal. lia.
Qed.

(** X3.  An empty year range ([end_year < start_year]) gives an empty
    frame for every scenario, known or not: the generator is reseeded, no
    draw is made and no subscript is evaluated.  A non-empty range with a
    scenario outside the table raises [KeyError] on the scenario, after
    the reseeding and exactly one uniform(0.1, 0.5) draw. *)
Theorem series_edge_cases country region scenario start_year end_year w :
  let seed := series_seed country region scenario in
  ((end_year < start_year)%Z ->
     generate_time_series country region scenario start_year end_year w
     = (Ok {| columns :=
                [ ("Year", IntCol []);
                  ("Temperature Change", FloatCol []);
                  ("Economic Impact", FloatCol []);
                  ("Agricultural Yield", FloatCol []);
                  ("Water Availability", FloatCol []) ];
              nrows := 0 |},
        {| rng := rs_seed seed; trace := (trace w ++ [Seeded seed])%list |}))
  /\ ((start_year <= end_year)%Z ->
      get scenario_multiplier scenario = None ->
      generate_time_series country region scenario start_year end_year w
      = (Raise (KeyError scenario),
         {| rng := snd (sample (Uniform 0.1 0.5) (rs_seed seed));
            trace := (trace w
                      ++ [ Seeded seed;
                           Drew (Uniform 0.1 0.5)
                             (fst (sample (Uniform 0.1 0.5) (rs_seed seed))) ])%list |})).
Proof.
  intros seed. split.
  - intros Hlt. unfold generate_time_series.
    rewrite range_empty by lia.
    unfold bind, np_random_seed.
    fold (series_seed country region scenario). fold seed.
    unfold seed at 1, series_seed at 1. rewrite seed_in_range.
    reflexivity.
  - intros Hle Hnone. unfold generate_time_series.
    destruct (range_cons start_year (end_year + 1) 10) as [rest ->]; [lia | lia |].
    unfold bind at 1. unfold np_random_seed.
    fold (series_seed country region scenario). fold seed.
    unfold seed at 1, series_seed at 1. rewrite seed_in_range.
    unfold bind at 1. cbn [mapM]. unfold bind at 1.
    unfold temperature_change, bind, np_random_uniform, draw, getitem.
    rewrite Hnone. cbn [raise rng trace fst snd].
    unfold raise. rewrite <- app_assoc. reflexivity.
Qed.

(** ** Failure and the memo tables *)

Lemma climate_args_eqb_refl (a : climate_args) : climate_args_eqb a a = true.
Proof.
  destruct a as [[[c r] t] s]. simpl. now rewrite !String.eqb_refl.
Qed.

Lemma series_args_eqb_refl (a : series_args) : series_args_eqb a a = true.
Proof.
  destruct a as [[[[c r] s] y] z]. simpl.
  now rewrite !String.eqb_refl, !Z.eqb_refl.
Qed.

Lemma cache_data_again {K V} (eqb : K -> K -> bool) (f : K -> M V)
    (k : K) (c : memo K V) (w : world) :
  (forall a, eqb a a = true) ->
  is_ok (fst (cache_data eqb f k c w)) = true ->
  cache_data eqb f k (fst (snd (cache_data eqb f k c w)))
    (snd (snd (cache_data eqb f k c w)))
  = (fst (cache_data eqb f k c w), snd (cache_data eqb f k c w)).
Proof.
  intros Hrefl. unfold cache_data.
  destruct (memo_get eqb c k) as [v |] eqn:G; cbn [fst snd].
  - intros _. now rewrite G.
  - destruct (f k w) as [[v | e] w1]; cbn [fst snd is_ok memo_get];
      intros Hok; [|discriminate Hok].
    now rewrite Hrefl.
Qed.

(** X4.  Repeating a decorated call that returned is served from the memo
    table: it returns the same value and leaves the whole process as it
    was, the module-level generator included.  This holds for both
    decorated functions and from any process. *)
Theorem cached_call_idempotent :
  (forall country region timeframe scenario p,
      let r := cached_generate_climate_data country region timeframe scenario p in
      is_ok (fst r) = true ->
      cached_generate_climate_data country region timeframe scenario (snd r) = r)
  /\ (forall country region scenario start_year end_year p,
      let r := cached_generate_time_series country region scenario
                 start_year end_year p in
      is_ok (fst r) = true ->
      cached_generate_time_series country region scenario
        start_year end_year (snd r) = r).
Proof.
  split.
  - intros country region timeframe scenario p r Hok. subst r.
    unfold cached_generate_climate_data in *. cbn [fst snd] in *.
    cbn [globals climate_memo series_memo].
    rewrite (cache_data_again _ _ _ _ _ climate_args_eqb_refl Hok).
    reflexivity.
  - intros country region scenario start_year end_year p r Hok. subst r.
    unfold cached_generate_time_series in *. cbn [fst snd] in *.
    cbn [globals climate_memo series_memo].
    rewrite (cache_data_again _ _ _ _ _ series_args_eqb_refl Hok).
    reflexivity.
Qed.

(** X5.  A point-estimator call that fails on its scenario or timeframe
    has already reseeded the module-level generator, and has made no
    draw.  Decorated, in a process whose memo tables hold only results of
    the undecorated function, the failure stores nothing: both tables are
    left as they were. *)
Theorem failed_call_effects country region timeframe scenario :
  get scenario_multiplier scenario = None
  \/ get time_multiplier timeframe = None ->
  let seed := climate_seed country region timeframe scenario in
  (forall w,
      is_ok (fst (generate_climate_data country region timeframe scenario w))
      = false
      /\ snd (generate_climate_data country region timeframe scenario w)
         = {| rng := rs_seed seed; trace := (trace w ++ [Seeded seed])%list |})
  /\ (forall p,
      process_sound p ->
      let r := cached_generate_climate_data country region timeframe scenario p in
      is_ok (fst r) = false
      /\ climate_memo (snd r) = climate_memo p
      /\ series_memo (snd r) = series_memo p
      /\ globals (snd r)
         = {| rng := rs_seed seed;
              trace := (trace (globals p) ++ [Seeded seed])%list |}).
Proof.
  intros Hbad seed.
  assert (Fail : forall w,
    exists e, generate_climate_data country region timeframe scenario w
    = (Raise e, {| rng := rs_seed seed;
                   trace := (trace w ++ [Seeded seed])%list |})).
  { intros w. unfold generate_climate_data, bind, np_random_seed, getitem.
    fold (climate_seed country region timeframe scenario). fold seed.
    unfold seed at 1, climate_seed at 1. rewrite seed_in_range.
    destruct (get scenario_multiplier scenario) as [s |] eqn:Hs.
    - destruct Hbad as [Hbad | Hbad]; [discriminate|]. rewrite Hbad.
      eexists. reflexivity.
    - eexists. reflexivity. }
  split.
  - intros w. destruct (Fail w) as [e ->]. now split.
  - intros p [Hc _] r. subst r.
    unfold cached_generate_climate_data, cache_data.
    destruct (memo_get climate_args_eqb (climate_memo p)
                (country, region, timeframe, scenario)) as [v |] eqn:G.
    + specialize (Hc _ _ G (globals p)). cbn [climate_body] in Hc.
      destruct (Fail (globals p)) as [e E]. rewrite E in Hc. discriminate.
    + cbn [climate_body]. destruct (Fail (globals p)) as [e ->].
      cbn [fst snd is_ok globals climate_memo series_memo]. repeat split.
Qed.

(** ** What a snapshot depends on *)

Lemma generate_climate_data_bad_scenario country region timeframe scenario w :
  get scenario_multiplier scenario = None ->
  fst (generate_climate_data country region timeframe scenario w)
  = Raise (KeyError scenario).
Proof.
  intros Hs. unfold generate_climate_data, bind, np_random_seed, getitem.
  rewrite seed_in_range, Hs. reflexivity.
Qed.

Lemma generate_climate_data_bad_timeframe country region timeframe scenario s w :
  get scenario_multiplier scenario = Some s ->
  get time_multiplier timeframe = None ->
  fst (generate_climate_data country region timeframe scenario w)
  = Raise (KeyError timeframe).
Proof.
  intros Hs Ht. unfold generate_climate_data, bind, np_random_seed, getitem.
  rewrite seed_in_range, Hs, Ht. reflexivity.
Qed.

(** X6.  The country and the region reach the snapshot only through the
    seed and the length of the region name: two selections with one
    scenario and timeframe whose seed strings hash to the same seed, and
    whose region names have the same length, get the same result.  The
    seed lies in 0..9999, so a scenario and timeframe allow at most
    10000 draw streams. *)
Theorem snapshot_depends_on_seed
    country1 region1 country2 region2 timeframe scenario w1 w2 :
  climate_seed country1 region1 timeframe scenario
  = climate_seed country2 region2 timeframe scenario ->
  String.length region1 = String.length region2 ->
  fst (generate_climate_data country1 region1 timeframe scenario w1)
  = fst (generate_climate_data country2 region2 timeframe scenario w2)
  /\ (0 <= climate_seed country1 region1 timeframe scenario < 10000)%Z.
Proof.
  intros Hseed Hlen. split.
  - destruct (get scenario_multiplier scenario) as [s |] eqn:Hs.
    + destruct (get time_multiplier timeframe) as [t |] eqn:Ht.
      * rewrite (generate_climate_data_run country1 region1 timeframe scenario
                   s t w1 Hs Ht).
        rewrite (generate_climate_data_run country2 region2 timeframe scenario
                   s t w2 Hs Ht).
        cbn [fst]. rewrite Hseed. unfold len. rewrite Hlen. reflexivity.
      * now rewrite !(generate_climate_data_bad_timeframe _ _ _ _ s _ Hs Ht).
    + now rewrite !(generate_climate_data_bad_scenario _ _ _ _ _ Hs).
  - unfold climate_seed. apply Z.mod_pos_bound. lia.
Qed.

(** ** The cross-region comparison *)

Lemma seedings_log_of (ds : list dist) (g : rstate) : seedings (log_of ds g) = 0%nat.
Proof.
  unfold seedings. revert g.
  induction ds as [| d ds IH]; intros g; simpl; [reflexivity | apply IH].
Qed.

Lemma process_eta (p : process) :
  {| globals := globals p; climate_memo := climate_memo p;
     series_memo := series_memo p |} = p.
Proof. now destruct p. Qed.

Lemma bindP_ok {A B} (m : P A) (k : A -> P B) (p p' : process) (a : A) :
  m p = (Ok a, p') -> bindP m k p = k a p'.
Proof. intros E. unfold bindP. now rewrite E. Qed.

(** One decorated call in a sound process, for a scenario and a timeframe
    of the tables. *)
Lemma cached_generate_climate_data_run country region timeframe scenario s t p :
  process_sound p ->
  get scenario_multiplier scenario = Some s ->
  get time_multiplier timeframe = Some t ->
  exists data p' es,
    cached_generate_climate_data country region timeframe scenario p
    = (Ok data, p')
    /\ (forall w,
          fst (generate_climate_data country region timeframe scenario w)
          = Ok data)
    /\ process_sound p'
    /\ memo_get climate_args_eqb (climate_memo p')
         (country, region, timeframe, scenario) = Some data
    /\ (forall a d,
          memo_get climate_args_eqb (climate_memo p) a = Some d ->
          memo_get climate_args_eqb (climate_memo p') a = Some d)
    /\ trace (globals p') = (trace (globals p) ++ es)%list
    /\ (seedings es <= 1)%nat
    /\ (forall d,
          memo_get climate_args_eqb (climate_memo p)
            (country, region, timeframe, scenario) = Some d ->
          p' = p).
Proof.
  intros [Hc Hser] Hs Ht.
  unfold cached_generate_climate_data, cache_data.
  destruct (memo_get climate_args_eqb (climate_memo p)
              (country, region, timeframe, scenario)) as [d |] eqn:G.
  - exists d, p, []. cbn [fst snd]. rewrite process_eta.
    split; [reflexivity|].
    split; [intros w; apply (Hc _ _ G w)|].
    split; [now split|].
    split; [exact G|].
    split; [auto|].
    split; [now rewrite app_nil_r|].
    split; [cbn; lia | reflexivity].
  - cbn [climate_body].
    pose proof (generate_climate_data_run country region timeframe scenario
                  s t (globals p) Hs Ht) as Run.
    cbv zeta in Run. rewrite Run. cbn [fst snd].
    eexists _, _, _. split; [reflexivity|].
    cbn [globals climate_memo series_memo rng trace].
    split.
    { intros w.
      rewrite (generate_climate_data_run country region timeframe scenario
                 s t w Hs Ht). reflexivity. }
    split.
    { split; [|exact Hser]. intros k v Hk w.
      cbn [memo_get climate_memo] in Hk.
      destruct (climate_args_eqb k (country, region, timeframe, scenario)) eqn:E.
      - apply climate_args_eqb_eq in E. subst k. injection Hk as <-.
        cbn [climate_body].
        rewrite (generate_climate_data_run country region timeframe scenario
                   s t w Hs Ht). reflexivity.
      - now apply Hc. }
    split; [cbn [memo_get]; now rewrite climate_args_eqb_refl|].
    split.
    { intros a d Ha. cbn [memo_get].
      destruct (climate_args_eqb a (country, region, timeframe, scenario)) eqn:E;
        [|exact Ha].
      apply climate_args_eqb_eq in E. subst a. congruence. }
    split; [reflexivity|].
    split; [|discriminate].
    unfold seedings. cbn [filter List.length].
    fold (seedings (log_of climate_draws
            (rs_seed (climate_seed country region timeframe scenario)))).
    rewrite seedings_log_of. lia.
Qed.

Lemma seedings_app (es fs : list event) :
  seedings (es ++ fs) = (seedings es + seedings fs)%nat.
Proof. unfold seedings. now rewrite filter_app, length_app. Qed.

(** One column of the comparison, in a sound process. *)
Lemma comparison_column_run key country timeframe scenario s t regions p :
  process_sound p ->
  get scenario_multiplier scenario = Some s ->
  get time_multiplier timeframe = Some t ->
  (forall region data w,
      fst (generate_climate_data country region timeframe scenario w) = Ok data ->
      exists v, get data key = Some v) ->
  exists vs p' es,
    comparison_column key country timeframe scenario regions p = (Ok vs, p')
    /\ process_sound p'
    /\ Forall2 (fun region v =>
                  exists data,
                    (forall w,
                        fst (generate_climate_data country region timeframe
                               scenario w) = Ok data)
                    /\ get data key = Some v)
               regions vs
    /\ (forall a d,
          memo_get climate_args_eqb (climate_memo p) a = Some d ->
          memo_get climate_args_eqb (climate_memo p') a = Some d)
    /\ (forall region, In region regions ->
          exists d, memo_get climate_args_eqb (climate_memo p')
                      (country, region, timeframe, scenario) = Some d)
    /\ trace (globals p') = (trace (globals p) ++ es)%list
    /\ (seedings es <= List.length regions)%nat
    /\ ((forall region, In region regions ->
           exists d, memo_get climate_args_eqb (climate_memo p)
                       (country, region, timeframe, scenario) = Some d) ->
        p' = p).
Proof.
  intros Hp Hs Ht Hkey. revert p Hp.
  induction regions as [| region regions IH]; intros p Hp.
  - exists [], p, []. cbn [comparison_column mapP retP List.length seedings filter In].
    rewrite app_nil_r.
    split; [reflexivity|]. split; [exact Hp|]. split; [constructor|].
    split; [auto|]. split; [intros region []|].
    split; [reflexivity|]. split; [lia | reflexivity].
  - destruct (cached_generate_climate_data_run country region timeframe
                scenario s t p Hp Hs Ht)
      as (data & p1 & es1 & Run1 & D1 & Hp1 & G1 & Keep1 & T1 & S1 & Same1).
    destruct (Hkey region data (globals p) (D1 _)) as [v Hv].
    destruct (IH p1 Hp1)
      as (vs & p2 & es2 & Run2 & Hp2 & F2 & Keep2 & All2 & T2 & S2 & Same2).
    exists (v :: vs), p2, (es1 ++ es2)%list.
    split.
    { unfold comparison_column in *. cbn [mapP].
      erewrite bindP_ok; [| erewrite bindP_ok; [| exact Run1];
                            unfold subscript; rewrite Hv; reflexivity].
      erewrite bindP_ok; [| exact Run2]. reflexivity. }
    split; [exact Hp2|].
    split; [constructor; [exists data; now split | exact F2]|].
    split; [intros a d Ha; apply Keep2, Keep1, Ha|].
    split.
    { intros r [<- | Hin]; [exists data; apply Keep2, G1 | now apply All2]. }
    split; [rewrite T2, T1, app_assoc; reflexivity|].
    split; [rewrite seedings_app; cbn [List.length]; lia|].
    intros Hall.
    destruct (Hall region (or_introl eq_refl)) as [d Hd].
    assert (p1 = p) by (apply (Same1 d Hd)). subst p1.
    apply Same2. intros r Hr. apply Hall. now right.
Qed.

Lemma Forall2_nth_error {A B} (R : A -> B -> Prop) (xs : list A) (ys : list B)
    (i : nat) (x : A) :
  Forall2 R xs ys -> nth_error xs i = Some x ->
  exists y, nth_error ys i = Some y /\ R x y.
Proof.
  intros F. revert i. induction F as [| x0 y0 xs ys H F IH]; intros i E.
  - destruct i; discriminate.
  - destruct i as [| i]; cbn in *.
    + injection E as <-. now exists y0.
    + now apply IH.
Qed.

Lemma comparison_regions_length (selected_country : string) :
  (List.length (comparison_regions selected_country) <= 4)%nat.
Proof.
  unfold comparison_regions.
  destruct (get region_list selected_country) as [regions |].
  - apply firstn_le_length.
  - cbn. lia.
Qed.

Lemma snapshot_keys country region timeframe scenario s t data w key :
  get scenario_multiplier scenario = Some s ->
  get time_multiplier timeframe = Some t ->
  fst (generate_climate_data country region timeframe scenario w) = Ok data ->
  In key [ "Economic Loss (billion USD)"; "Temperature Increase";
           "Agricultural Yield Change" ] ->
  exists v, get data key = Some v.
Proof.
  intros Hs Ht Run Hkey.
  rewrite (generate_climate_data_run country region timeframe scenario
             s t w Hs Ht) in Run.
  cbn [fst] in Run. injection Run as <-.
  destruct Hkey as [<- | [<- | [<- | []]]]; eexists; reflexivity.
Qed.

(** X7.  In a process whose memo tables hold only results of the
    undecorated function, and for a scenario and a timeframe of the
    tables, the comparison dict is built without error: its four lists
    have one length, at most four, and the three numbers at position [i]
    are the Economic Loss, Temperature Increase and Agricultural Yield
    Change of one and the same snapshot, the one of region [i], although
    the three lists are filled by three separate passes over the
    regions. *)
Theorem comparison_rows_consistent country timeframe scenario s t p :
  process_sound p ->
  get scenario_multiplier scenario = Some s ->
  get time_multiplier timeframe = Some t ->
  exists c p',
    comparison_data country timeframe scenario p = (Ok c, p')
    /\ process_sound p'
    /\ cmp_Region c = comparison_regions country
    /\ (List.length (cmp_Region c) <= 4)%nat
    /\ List.length (cmp_Economic_Loss c) = List.length (cmp_Region c)
    /\ List.length (cmp_Temperature_Increase c) = List.length (cmp_Region c)
    /\ List.length (cmp_Agricultural_Impact c) = List.length (cmp_Region c)
    /\ forall i region,
         nth_error (cmp_Region c) i = Some region ->
         exists data,
           (forall w,
               fst (generate_climate_data country region timeframe scenario w)
               = Ok data)
           /\ nth_error (cmp_Economic_Loss c) i
              = get data "Economic Loss (billion USD)"
           /\ nth_error (cmp_Temperature_Increase c) i
              = get data "Temperature Increase"
           /\ nth_error (cmp_Agricultural_Impact c) i
              = get data "Agricultural Yield Change".
Proof.
  intros Hp Hs Ht.
  assert (Hkey : forall key,
            In key [ "Economic Loss (billion USD)"; "Temperature Increase";
                     "Agricultural Yield Change" ] ->
            forall region data w,
              fst (generate_climate_data country region timeframe scenario w)
              = Ok data ->
              exists v, get data key = Some v).
  { intros key Hin region data w Run.
    eapply snapshot_keys; eauto. }
  set (regions := comparison_regions country).
  destruct (comparison_column_run "Economic Loss (billion USD)" country
              timeframe scenario s t regions p Hp Hs Ht
              (Hkey "Economic Loss (billion USD)" ltac:(cbn; auto)))
    as (es & p1 & tr1 & Run1 & Hp1 & F1 & _).
  destruct (comparison_column_run "Temperature Increase" country
              timeframe scenario s t regions p1 Hp1 Hs Ht
              (Hkey "Temperature Increase" ltac:(cbn; auto)))
    as (ts & p2 & tr2 & Run2 & Hp2 & F2 & _).
  destruct (comparison_column_run "Agricultural Yield Change" country
              timeframe scenario s t regions p2 Hp2 Hs Ht
              (Hkey "Agricultural Yield Change" ltac:(cbn; auto)))
    as (ags & p3 & tr3 & Run3 & Hp3 & F3 & _).
  eexists _, p3. split.
  { unfold comparison_data. fold regions.
    erewrite bindP_ok; [| exact Run1].
    erewrite bindP_ok; [| exact Run2].
    erewrite bindP_ok; [| exact Run3]. reflexivity. }
  cbn [cmp_Region cmp_Economic_Loss cmp_Temperature_Increase
         cmp_Agricultural_Impact].
  split; [exact Hp3|].
  split; [reflexivity|].
  split; [apply comparison_regions_length|].
  split; [symmetry; apply (Forall2_length F1)|].
  split; [symmetry; apply (Forall2_length F2)|].
  split; [symmetry; apply (Forall2_length F3)|].
  intros i region Hi.
  destruct (Forall2_nth_error _ _ _ _ _ F1 Hi) as (e & He & d1 & D1 & G1).
  destruct (Forall2_nth_error _ _ _ _ _ F2 Hi) as (tv & Htv & d2 & D2 & G2).
  destruct (Forall2_nth_error _ _ _ _ _ F3 Hi) as (a & Hav & d3 & D3 & G3).
  assert (d2 = d1)
    by (pose proof (D1 (globals p)); pose proof (D2 (globals p)); congruence).
  assert (d3 = d1)
    by (pose proof (D1 (globals p)); pose proof (D3 (globals p)); congruence).
  subst d2 d3. exists d1.
  split; [exact D1|]. rewrite He, Htv, Hav, G1, G2, G3. now repeat split.
Qed.

(** X8.  Under the same conditions only the first pass of the comparison
    can reach the undecorated function: the second and the third pass are
    served from the memo table, so the process after the whole comparison
    is the process after the first pass, and the comparison reseeds the
    module-level generator at most once per region, four times at
    most. *)
Theorem comparison_reuses_snapshots country timeframe scenario s t p :
  process_sound p ->
  get scenario_multiplier scenario = Some s ->
  get time_multiplier timeframe = Some t ->
  let regions := comparison_regions country in
  snd (comparison_data country timeframe scenario p)
  = snd (comparison_column "Economic Loss (billion USD)" country timeframe
           scenario regions p)
  /\ exists es,
       trace (globals (snd (comparison_data country timeframe scenario p)))
       = (trace (globals p) ++ es)%list
       /\ (seedings es <= List.length regions)%nat
       /\ (seedings es <= 4)%nat.
Proof.
  intros Hp Hs Ht regions.
  assert (Hkey : forall key,
            In key [ "Economic Loss (billion USD)"; "Temperature Increase";
                     "Agricultural Yield Change" ] ->
            forall region data w,
              fst (generate_climate_data country region timeframe scenario w)
              = Ok data ->
              exists v, get data key = Some v).
  { intros key Hin region data w Run.
    eapply snapshot_keys; eauto. }
  destruct (comparison_column_run "Economic Loss (billion USD)" country
              timeframe scenario s t regions p Hp Hs Ht
              (Hkey "Economic Loss (billion USD)" ltac:(cbn; auto)))
    as (es & p1 & tr1 & Run1 & Hp1 & _ & _ & All1 & T1 & S1 & _).
  destruct (comparison_column_run "Temperature Increase" country
              timeframe scenario s t regions p1 Hp1 Hs Ht
              (Hkey "Temperature Increase" ltac:(cbn; auto)))
    as (ts & p2 & tr2 & Run2 & Hp2 & _ & _ & _ & _ & _ & Same2).
  specialize (Same2 All1). subst p2.
  destruct (comparison_column_run "Agricultural Yield Change" country
              timeframe scenario s t regions p1 Hp1 Hs Ht
              (Hkey "Agricultural Yield Change" ltac:(cbn; auto)))
    as (ags & p3 & tr3 & Run3 & Hp3 & _ & _ & _ & _ & _ & Same3).
  specialize (Same3 All1). subst p3.
  assert (E : snd (comparison_data country timeframe scenario p) = p1).
  { unfold comparison_data. fold regions.
    erewrite bindP_ok; [| exact Run1].
    erewrite bindP_ok; [| exact Run2].
    erewrite bindP_ok; [| exact Run3]. reflexivity. }
  rewrite E, Run1. cbn [snd]. split; [reflexivity|].
  exists tr1. split; [exact T1|]. split; [exact S1|].
  pose proof (comparison_regions_length country). fold regions in H. lia.
Qed.

(** ** The sector warnings *)

Lemma Qltb_false (a b : Q) : b <= a -> Qltb a b = false.
Proof.
  intros H. unfold Qltb. apply Qle_bool_iff in H. now rewrite H.
Qed.

(** X9.  With a generator that keeps uniform samples between their
    bounds, the sector panels never fail on a generated snapshot: the
    three keys they subscript are present and at most three warnings are
    shown.  When the product of the two multipliers is at most 0.6,
    which is the case of RCP 2.6 with 2030, Water Stress Index cannot
    exceed 0.6 and the water-scarcity warning is never shown. *)
Theorem water_warning_unreachable country region timeframe scenario s t w :
  uniform_in_range ->
  get scenario_multiplier scenario = Some s ->
  get time_multiplier timeframe = Some t ->
  exists data w' warnings,
    generate_climate_data country region timeframe scenario w = (Ok data, w')
    /\ sector_warnings data = Ok warnings
    /\ (List.length warnings <= 3)%nat
    /\ (s * t <= 0.6 -> ~ In water_warning warnings).
Proof.
  intros Hrange Hs Ht.
  pose proof (generate_climate_data_run country region timeframe scenario
                s t w Hs Ht) as Run.
  cbv zeta in Run.
  set (v := fun i => nth i (stream climate_draws
                 (rs_seed (climate_seed country region timeframe scenario))) 0)
    in *.
  assert (H8 : 0 <= v 8%nat <= 100) by (apply Hrange; discriminate).
  pose proof (scaled_index_within s t (v 8%nat)
                (scenario_multiplier_cases _ _ Hs)
                (time_multiplier_cases _ _ Ht) H8) as [_ Hw].
  eexists _, _, _. split; [exact Run|].
  unfold sector_warnings, subscript, and_then.
  cbn [get String.eqb Ascii.eqb Bool.eqb].
  split; [reflexivity|].
  split.
  { repeat match goal with
           | |- context [if ?b then _ else _] => destruct b
           end; cbn; lia. }
  intros Hst.
  rewrite (Qltb_false 0.6 (round (v 8%nat * s * t / 100) 2)) by lra.
  intros Hin. apply in_app_or in Hin. destruct Hin as [Hin | Hin].
  - destruct (Qltb _ _); [|destruct Hin].
    destruct Hin as [E | []]. discriminate E.
  - cbn [app] in Hin. destruct (Qltb _ _); [|destruct Hin].
    destruct Hin as [E | []]. discriminate E.
Qed.

End ScriptProperties.

(** ** The region tables *)

(** X10.  The two country tables agree: [region_list] has exactly the
    countries of [country_list] as keys.  So for every country the
    sidebar offers, the region options are that country's own list of
    four to six distinct regions, the fall-back region is never among
    them, and the comparison covers exactly four regions, the first four
    of the list. *)
Theorem region_tables_consistent :
  keys region_list = country_list
  /\ forall country, In country country_list ->
       exists regions,
         get region_list country = Some regions
         /\ (4 <= List.length regions <= 6)%nat
         /\ NoDup regions
         /\ region_options country = regions
         /\ ~ In fallback_region (region_options country)
         /\ comparison_regions country = firstn 4 regions
         /\ List.length (comparison_regions country) = 4%nat.
Proof.
  split; [reflexivity|].
  intros country Hin.
  repeat (destruct Hin as [<- | Hin];
    [ eexists; split; [reflexivity|];
      split; [cbn; lia|];
      split; [repeat (constructor; [cbn; intuition discriminate|]); constructor|];
      split; [reflexivity|];
      split; [cbn; intuition discriminate|];
      split; reflexivity
    | ]).
  destruct Hin.
Qed.

(** ** The tables *)

(** C7.  The scenario table maps low to 0.7, intermediate to 1.0 and high
    to 1.5; the time table maps 2030 to 0.8, 2050 to 1.0, 2070 to 1.3 and
    2100 to 1.6; every entry is positive and both tables increase
    strictly along their keys. *)
Theorem multiplier_tables :
  keys scenario_multiplier
  = [ "RCP 2.6 (Low emissions)"; "RCP 4.5 (Intermediate)";
      "RCP 8.5 (High emissions)" ]
  /\ get scenario_multiplier "RCP 2.6 (Low emissions)" = Some 0.7
  /\ get scenario_multiplier "RCP 4.5 (Intermediate)" = Some 1.0
  /\ get scenario_multiplier "RCP 8.5 (High emissions)" = Some 1.5
  /\ keys time_multiplier = [ "2030"; "2050"; "2070"; "2100" ]
  /\ get time_multiplier "2030" = Some 0.8
  /\ get time_multiplier "2050" = Some 1.0
  /\ get time_multiplier "2070" = Some 1.3
  /\ get time_multiplier "2100" = Some 1.6
  /\ Forall (fun kv => 0 < snd kv) scenario_multiplier
  /\ Forall (fun kv => 0 < snd kv) time_multiplier
  /\ StronglySorted Qlt (map snd scenario_multiplier)
  /\ StronglySorted Qlt (map snd time_multiplier).
Proof.
  repeat split; try reflexivity;
    unfold scenario_multiplier, time_multiplier; cbn [map snd];
    repeat constructor.
Qed.

(** ** The concrete generator *)

Import Lcg.

Lemma lcg_unit_range (g : Z) : 0 <= unit_of (step g) <= 1.
Proof.
  unfold unit_of. rewrite Qred_correct.
  assert (H : (0 <= step g < 2147483648)%Z)
    by (apply Z.mod_pos_bound; lia).
  assert (P : 0 < inject_Z 2147483648) by reflexivity.
  split.
  - apply Qle_shift_div_l; [exact P|].
    rewrite Qmult_0_l. change 0 with (inject_Z 0). rewrite <- Zle_Qle. lia.
  - apply Qle_shift_div_r; [exact P|].
    rewrite Qmult_1_l. rewrite <- Zle_Qle. lia.
Qed.

Lemma lcg_uniform_within (low high : Q) (g : Z) :
  low <= high -> low <= fst (rs_uniform low high g) <= high.
Proof.
  intros Hle. cbn [rs_uniform random_state uniform fst].
  rewrite Qred_correct.
  destruct (lcg_unit_range g) as [H0 H1].
  set (u := unit_of (step g)) in *.
  assert (A : 0 <= (high - low) * u) by (apply Qmult_le_0_compat; lra).
  assert (B : (high - low) * u <= (high - low) * 1).
  { rewrite (Qmult_comm (high - low) u), (Qmult_comm (high - low) 1).
    apply Qmult_le_compat_r; lra. }
  lra.
Qed.

(** ** The indices are not clamped *)

(** C9, as the code has it.  For a scenario and a timeframe of the tables
    and a generator whose uniform samples lie between their bounds, each
    of Drought Risk, Flood Risk, Health Impact Index and Water Stress
    Index is [round(u * scenario_multiplier * time_multiplier / 100, 2)]
    for a [uniform(0, 100)] draw [u] of the call, with nothing else
    applied, and lies between 0 and the combined multiplier rounded to
    two decimals, [round(scenario_multiplier * time_multiplier, 2)].
    That bound is at most 2.4, reached by the high-emission 2100 pair,
    and values above 1 do occur: for that pair every draw of 50 or more
    gives an index above 1, and one concrete run has Drought Risk 2.29. *)
Theorem index_range :
  (forall (RS : RandomState) (SH : StrHash)
          country region timeframe scenario s t (w : world),
      (forall low high g,
          low <= high -> low <= fst (rs_uniform low high g) <= high) ->
      get scenario_multiplier scenario = Some s ->
      get time_multiplier timeframe = Some t ->
      exists data w',
        generate_climate_data country region timeframe scenario w = (Ok data, w')
        /\ round (s * t) 2 <= 2.4
        /\ forall name,
             In name [ "Drought Risk"; "Flood Risk"; "Health Impact Index";
                       "Water Stress Index" ] ->
             exists u x,
               In (Drew (Uniform 0 100) u) (new_events w w')
               /\ get data name = Some x
               /\ x = round (u * s * t / 100) 2
               /\ 0 <= x <= round (s * t) 2)
  /\ (exists s t,
        get scenario_multiplier "RCP 8.5 (High emissions)" = Some s
        /\ get time_multiplier "2100" = Some t
        /\ round (s * t) 2 == 2.4
        /\ forall u, 50 <= u -> 1 < round (u * s * t / 100) 2)
  /\ (exists data,
        fst (generate_climate_data "Ghana" "Ashanti" "2100"
               "RCP 8.5 (High emissions)" w0) = Ok data
        /\ get data "Drought Risk" = Some 2.29
        /\ 1 < 2.29).
Proof.
  split; [| split].
  - intros RS SH country region timeframe scenario s t w Hrange Hs Ht.
    destruct (index_within country region timeframe scenario s t w
                Hrange Hs Ht) as (data & w' & Run & Hidx).
    assert (Hround : s * t <= round (s * t) 2 /\ round (s * t) 2 <= 2.4).
    { destruct (scenario_multiplier_cases _ _ Hs) as [-> | [-> | ->]],
               (time_multiplier_cases _ _ Ht) as [-> | [-> | [-> | ->]]];
        split; vm_compute; discriminate. }
    exists data, w'. split; [exact Run|]. split; [apply Hround|].
    intros name Hname.
    destruct (Hidx name Hname) as (u & x & Hin & Hget & Hx & H0 & H1).
    exists u, x. repeat split; try assumption.
    apply Qle_trans with (y := s * t); [exact H1 | apply Hround].
  - exists 1.5, 1.6. split; [reflexivity|]. split; [reflexivity|].
    split; [reflexivity|].
    intros u Hu.
    apply Qlt_le_trans with (y := inject_Z 120 / pow10 2); [reflexivity|].
    apply round_ge_grid.
    change (pow10 2) with 100. change (inject_Z 120) with 120.
    unfold Qdiv. change (/ 100) with (1 # 100). lra.
  - eexists. split; [vm_compute; reflexivity|]. split; reflexivity.
Qed.

(** * Concrete runs *)

Lemma point_estimator_formulas_witness :
  exists data w',
    generate_climate_data "Ghana" "Ashanti" "2050" "RCP 4.5 (Intermediate)" w0
    = (Ok data, w')
    /\ keys data
       = [ "Temperature Increase"; "Precipitation Change"; "Sea Level Rise";
           "Drought Risk"; "Flood Risk"; "Agricultural Yield Change";
           "Economic Loss (billion USD)"; "Health Impact Index";
           "Water Stress Index" ].
Proof.
  destruct (point_estimator_formulas "Ghana" "Ashanti" "2050"
              "RCP 4.5 (Intermediate)" 1.0 1.0 w0 eq_refl eq_refl)
    as (data & w' & n & uT & uP & uS & uD & uF & uA & uH & uW
        & Run & _ & _ & K & _).
  exists data, w'. split; [exact Run | exact K].
Defined.

Lemma point_estimator_draw_order_witness :
  exists data w',
    generate_climate_data "Ghana" "Ashanti" "2050" "RCP 4.5 (Intermediate)" w0
    = (Ok data, w')
    /\ nth_error (draws (new_events w0 w')) 0 = Some (Normal 0 0.2).
Proof.
  destruct (point_estimator_draw_order "Ghana" "Ashanti" "2050"
              "RCP 4.5 (Intermediate)" 1.0 1.0 w0 eq_refl eq_refl)
    as (data & w' & Run & _ & D & _).
  exists data, w'. split; [exact Run|]. rewrite D. reflexivity.
Defined.

Lemma economic_loss_floor_witness :
  exists data w' loss,
    generate_climate_data "Ghana" "Ashanti" "2050" "RCP 4.5 (Intermediate)" w0
    = (Ok data, w')
    /\ get data "Economic Loss (billion USD)" = Some loss
    /\ 0.1 <= loss.
Proof.
  destruct (economic_loss_floor "Ghana" "Ashanti" "2050"
              "RCP 4.5 (Intermediate)" 1.0 1.0 w0 eq_refl eq_refl)
    as (data & w' & n & loss & Run & _ & G & _ & L).
  exists data, w', loss. repeat split; assumption.
Defined.

Lemma series_draw_order_witness :
  exists df w',
    generate_time_series "Ghana" "Ashanti" "RCP 4.5 (Intermediate)" 2020 2100 w0
    = (Ok df, w')
    /\ draws (new_events w0 w') = series_draws 9.
Proof.
  destruct (series_draw_order "Ghana" "Ashanti" "RCP 4.5 (Intermediate)"
              1.0 2020 2100 w0 eq_refl)
    as (df & w' & Run & _ & D & _).
  exists df, w'. split; [exact Run | exact D].
Defined.

Lemma series_year_range_witness :
  exists df w',
    generate_time_series "Ghana" "Ashanti" "RCP 4.5 (Intermediate)" 2020 2100 w0
    = (Ok df, w')
    /\ int_col df "Year"
       = [2020; 2030; 2040; 2050; 2060; 2070; 2080; 2090; 2100]%Z
    /\ nrows df = 9%nat.
Proof.
  destruct (series_year_range "Ghana" "Ashanti" "RCP 4.5 (Intermediate)"
              1.0 2020 2100 w0 eq_refl)
    as (df & w' & Run & _ & _ & _ & _ & _ & _ & _ & _ & _ & Default).
  exists df, w'. split; [exact Run|]. apply Default; reflexivity.
Defined.

Lemma series_first_point_witness :
  exists df w',
    generate_time_series "Ghana" "Ashanti" "RCP 4.5 (Intermediate)" 2020 2100 w0
    = (Ok df, w')
    /\ nth_error (float_col df "Temperature Change") 0 = Some 0
    /\ nth_error (float_col df "Agricultural Yield") 0 = Some 100.
Proof.
  destruct (series_first_point "Ghana" "Ashanti" "RCP 4.5 (Intermediate)"
              1.0 w0 eq_refl)
    as (df & w' & Run & _ & T & _ & A & _).
  exists df, w'. repeat split; assumption.
Defined.

Lemma fail_fast_witness :
  fst (generate_climate_data "Ghana" "Ashanti" "2050" "RCP 9.9" w0)
  = Raise (KeyError "RCP 9.9")
  /\ fst (generate_climate_data "Ghana" "Ashanti" "2040"
            "RCP 4.5 (Intermediate)" w0)
     = Raise (KeyError "2040")
  /\ is_ok (fst (generate_climate_data "Atlantis" "Ashanti" "2050"
                   "RCP 4.5 (Intermediate)" w0)) = true
  /\ is_ok (fst (generate_time_series "Atlantis" "Ashanti"
                   "RCP 4.5 (Intermediate)" 2020 2100 w0)) = true.
Proof.
  destruct (@fail_fast random_state str_hash) as (F1 & F2 & F3 & F4).
  split; [apply F1; reflexivity|].
  split; [apply (F2 _ _ _ _ 1.0); reflexivity|].
  split; [apply (F3 _ _ _ _ 1.0 1.0); reflexivity|].
  apply (F4 _ _ _ 1.0); reflexivity.
Defined.

Lemma index_range_witness :
  exists data w',
    generate_climate_data "Ghana" "Ashanti" "2100" "RCP 8.5 (High emissions)" w0
    = (Ok data, w')
    /\ exists x, get data "Flood Risk" = Some x /\ 0 <= x <= round (1.5 * 1.6) 2.
Proof.
  destruct index_range as (Bound & _ & _).
  destruct (Bound random_state str_hash "Ghana" "Ashanti" "2100"
              "RCP 8.5 (High emissions)" 1.5 1.6 w0
              lcg_uniform_within eq_refl eq_refl)
    as (data & w' & Run & _ & Hidx).
  exists data, w'. split; [exact Run|].
  destruct (Hidx "Flood Risk" (or_intror (or_introl eq_refl)))
    as (u & x & _ & G & _ & R).
  exists x. split; assumption.
Defined.

(** * Where the code departs from the specification's wording *)

(** C3 as worded (the normal draw ninth and last) fails: on this run the
    normal draw is the first request and the ninth request is a uniform
    one; Temperature Increase is 21/5 = 4.2, computed from the second
    value of the stream, where the first value would have given
    13/5 = 2.6. *)
Lemma point_estimator_spec_order_fails :
  let r := generate_climate_data "Ghana" "Ashanti" "2050"
             "RCP 4.5 (Intermediate)" w0 in
  let seed := climate_seed "Ghana" "Ashanti" "2050" "RCP 4.5 (Intermediate)" in
  draws (new_events w0 (snd r)) <> spec_climate_draws
  /\ nth_error (draws (new_events w0 (snd r))) 0 = Some (Normal 0 0.2)
  /\ nth_error (draws (new_events w0 (snd r))) 8 = Some (Uniform 0 100)
  /\ (exists data, fst r = Ok data
        /\ get data "Temperature Increase" = Some (21 # 5)
        /\ round (nth 0 (stream spec_climate_draws (rs_seed seed)) 0
                  * 1.0 * 1.0) 1 = 13 # 5).
Proof.
  cbv zeta. split; [vm_compute; discriminate|].
  split; [vm_compute; reflexivity|].
  split; [vm_compute; reflexivity|].
  eexists. split; [vm_compute; reflexivity|]. split; vm_compute; reflexivity.
Qed.

(** C4 as worded (draws grouped per year) fails: on this run over nine
    years the second request is again the Temperature Change one, for
    2030, not the Economic Impact one of 2020; Economic Impact for 2030 is
    63/50 = 1.26, where the per-year order would have given
    27/25 = 1.08. *)
Lemma series_spec_order_fails :
  let r := generate_time_series "Ghana" "Ashanti" "RCP 4.5 (Intermediate)"
             2020 2100 w0 in
  let seed := series_seed "Ghana" "Ashanti" "RCP 4.5 (Intermediate)" in
  draws (new_events w0 (snd r)) <> spec_series_draws 9
  /\ nth_error (spec_series_draws 9) 1 = Some (Normal 0 0.1)
  /\ nth_error (draws (new_events w0 (snd r))) 1 = Some (Uniform 0.1 0.5)
  /\ (exists df, fst r = Ok df
        /\ nth_error (float_col df "Economic Impact") 1 = Some (63 # 50)
        /\ round (len "Ashanti" * 0.2 * 1.0 * inject_Z (2030 - 2020) / 10
                  * (1 + nth 5 (stream (spec_series_draws 9) (rs_seed seed)) 0))
             2 = 27 # 25).
Proof.
  cbv zeta. split; [vm_compute; discriminate|].
  split; [reflexivity|].
  split; [vm_compute; reflexivity|].
  eexists. split; [vm_compute; reflexivity|]. split; vm_compute; reflexivity.
Qed.

(** C8 as worded (an unrecognized country fails) fails: a country outside
    [country_list] and [region_list], with the region the sidebar falls
    back to, gets a snapshot. *)
Lemma unrecognized_country_accepted :
  ~ In "Atlantis" country_list
  /\ get region_list "Atlantis" = None
  /\ is_ok (fst (generate_climate_data "Atlantis" fallback_region "2050"
                   "RCP 4.5 (Intermediate)" w0)) = true.
Proof.
  split; [| split; vm_compute; reflexivity].
  intros H. repeat (destruct H as [H | H]; [discriminate H|]). exact H.
Qed.

(** * Concrete runs of the script *)

Lemma quantity_ranges_witness :
  exists data w' temperature,
    generate_climate_data "Ghana" "Ashanti" "2050" "RCP 4.5 (Intermediate)" w0
    = (Ok data, w')
    /\ get data "Temperature Increase" = Some temperature
    /\ 0.3 <= temperature <= 10.8.
Proof.
  destruct (quantity_ranges "Ghana" "Ashanti" "2050" "RCP 4.5 (Intermediate)"
              1.0 1.0 w0 lcg_uniform_within eq_refl eq_refl)
    as (data & w' & T & Pc & S & A & Run & GT & _ & BT & _).
  exists data, w', T. repeat split; try assumption; apply BT.
Defined.

Lemma series_ranges_witness :
  exists df w',
    generate_time_series "Ghana" "Ashanti" "RCP 4.5 (Intermediate)" 2020 2100 w0
    = (Ok df, w')
    /\ exists yield,
         nth_error (float_col df "Agricultural Yield") 8 = Some yield
         /\ 76 <= yield <= 100.
Proof.
  destruct (series_ranges "Ghana" "Ashanti" "RCP 4.5 (Intermediate)" 1.0
              2020 2100 w0 lcg_uniform_within eq_refl)
    as (df & w' & Run & Rows).
  exists df, w'. split; [exact Run|].
  assert (Y : nth_error (int_col df "Year") 8 = Some 2100%Z).
  { assert (E : fst (generate_time_series "Ghana" "Ashanti"
                       "RCP 4.5 (Intermediate)" 2020 2100 w0) = Ok df)
      by (now rewrite Run).
    vm_compute in E. injection E as <-. reflexivity. }
  destruct (Rows 8%nat 2100%Z Y ltac:(lia))
    as (tc & ay & wa & _ & _ & A & B & _).
  exists ay. split; assumption.
Defined.

Lemma series_edge_cases_witness :
  is_ok (fst (generate_time_series "Ghana" "Ashanti" "RCP 9.9" 2100 2020 w0))
  = true
  /\ fst (generate_time_series "Ghana" "Ashanti" "RCP 9.9" 2020 2100 w0)
     = Raise (KeyError "RCP 9.9").
Proof.
  split.
  - destruct (series_edge_cases "Ghana" "Ashanti" "RCP 9.9" 2100 2020 w0)
      as [Empty _].
    rewrite Empty by reflexivity. reflexivity.
  - destruct (series_edge_cases "Ghana" "Ashanti" "RCP 9.9" 2020 2100 w0)
      as [_ Bad].
    rewrite Bad; [reflexivity | discriminate | reflexivity].
Defined.

Lemma cached_call_idempotent_witness :
  let r := cached_generate_climate_data "Ghana" "Ashanti" "2050"
             "RCP 4.5 (Intermediate)" (fresh w0) in
  cached_generate_climate_data "Ghana" "Ashanti" "2050"
    "RCP 4.5 (Intermediate)" (snd r) = r.
Proof.
  destruct (@cached_call_idempotent random_state str_hash) as [Climate _].
  apply Climate. vm_compute. reflexivity.
Defined.

Lemma failed_call_effects_witness :
  snd (generate_climate_data "Ghana" "Ashanti" "2040"
         "RCP 4.5 (Intermediate)" w0)
  = {| rng := rs_seed (climate_seed "Ghana" "Ashanti" "2040"
                         "RCP 4.5 (Intermediate)");
       trace := [Seeded (climate_seed "Ghana" "Ashanti" "2040"
                           "RCP 4.5 (Intermediate)")] |}.
Proof.
  destruct (failed_call_effects "Ghana" "Ashanti" "2040"
              "RCP 4.5 (Intermediate)" (or_intror eq_refl)) as [World _].
  apply (World w0).
Defined.

Lemma snapshot_depends_on_seed_witness :
  "Aae" <> "Boq"
  /\ fst (generate_climate_data "Ghana" "Aae" "2050" "RCP 4.5 (Intermediate)" w0)
     = fst (generate_climate_data "Ghana" "Boq" "2050" "RCP 4.5 (Intermediate)" w0).
Proof.
  split; [discriminate|].
  apply (snapshot_depends_on_seed "Ghana" "Aae" "Ghana" "Boq" "2050"
           "RCP 4.5 (Intermediate)" w0 w0); reflexivity.
Defined.

Lemma comparison_rows_consistent_witness :
  exists c p',
    comparison_data "Ghana" "2050" "RCP 4.5 (Intermediate)" (fresh w0)
    = (Ok c, p')
    /\ cmp_Region c = ["Greater Accra"; "Ashanti"; "Northern"; "Western"].
Proof.
  destruct (comparison_rows_consistent "Ghana" "2050" "RCP 4.5 (Intermediate)"
              1.0 1.0 (fresh w0) (fresh_sound w0) eq_refl eq_refl)
    as (c & p' & Run & _ & R & _).
  exists c, p'. split; [exact Run | exact R].
Defined.

Lemma comparison_reuses_snapshots_witness :
  exists es,
    trace (globals (snd (comparison_data "Ghana" "2050"
                           "RCP 4.5 (Intermediate)" (fresh w0))))
    = (trace (globals (fresh w0)) ++ es)%list
    /\ (seedings es <= 4)%nat.
Proof.
  destruct (comparison_reuses_snapshots "Ghana" "2050" "RCP 4.5 (Intermediate)"
              1.0 1.0 (fresh w0) (fresh_sound w0) eq_refl eq_refl)
    as (_ & es & T & _ & S).
  exists es. split; [exact T | exact S].
Defined.

Lemma water_warning_unreachable_witness :
  exists data w' warnings,
    generate_climate_data "Ghana" "Ashanti" "2030" "RCP 2.6 (Low emissions)" w0
    = (Ok data, w')
    /\ sector_warnings data = Ok warnings
    /\ ~ In water_warning warnings.
Proof.
  destruct (water_warning_unreachable "Ghana" "Ashanti" "2030"
              "RCP 2.6 (Low emissions)" 0.7 0.8 w0
              lcg_uniform_within eq_refl eq_refl)
    as (data & w' & ws & Run & W & _ & Never).
  exists data, w', ws. split; [exact Run|]. split; [exact W|].
  apply Never. discriminate.
Defined.

Lemma region_tables_consistent_witness :
  exists regions,
    get region_list "Kenya" = Some regions
    /\ List.length (comparison_regions "Kenya") = 4%nat.
Proof.
  destruct region_tables_consistent as [_ Each].
  destruct (Each "Kenya" ltac:(cbn; auto))
    as (regions & G & _ & _ & _ & _ & _ & L).
  exists regions. split; [exact G | exact L].
Defined.

(** C1 as worded (the result depends on the arguments alone, with no
    shared state) fails twice.  The same selection under two salts of the
    string hash, as in two Python processes, gets two seeds and two
    snapshots.  And within one process, one draw made by another thread
    between the reseeding of line 109 and the draw of line 127 changes
    the snapshot: the generator is shared. *)
Lemma determinism_needs_one_process :
  @climate_seed str_hash "Ghana" "Ashanti" "2050" "RCP 4.5 (Intermediate)"
  <> @climate_seed salted_str_hash "Ghana" "Ashanti" "2050"
       "RCP 4.5 (Intermediate)"
  /\ fst (@generate_climate_data random_state str_hash
            "Ghana" "Ashanti" "2050" "RCP 4.5 (Intermediate)" w0)
     <> fst (@generate_climate_data random_state salted_str_hash
               "Ghana" "Ashanti" "2050" "RCP 4.5 (Intermediate)" w0)
  /\ fst (interleaved_generate_climate_data (Uniform 0 100)
            "Ghana" "Ashanti" "2050" "RCP 4.5 (Intermediate)" w0)
     <> fst (generate_climate_data
               "Ghana" "Ashanti" "2050" "RCP 4.5 (Intermediate)" w0).
Proof.
  split; [vm_compute; discriminate|].
  split; intros H; vm_compute in H; discriminate H.
Qed.

(** C9 as worded (each index at most the product of the two multipliers)
    fails in the arithmetic the code runs on.  For RCP 2.6 with 2030 and
    a draw of 99.5, the index is the float 0.56, while the product of the
    floats 0.7 and 0.8 is 0.5599999999999999, below 0.56: the index
    exceeds the product. *)
Lemma index_exceeds_binary64_product :
  Binary64.index Binary64.f99_5 Binary64.f0_7 Binary64.f0_8 = Binary64.f0_56
  /\ PrimFloat.ltb (PrimFloat.mul Binary64.f0_7 Binary64.f0_8) Binary64.f0_56
     = true
  /\ PrimFloat.leb (Binary64.index Binary64.f99_5 Binary64.f0_7 Binary64.f0_8)
                   (PrimFloat.mul Binary64.f0_7 Binary64.f0_8)
     = false
  /\ Binary64.exact (PrimFloat.mul Binary64.f0_7 Binary64.f0_8) < 0.56
  /\ Binary64.exact Binary64.f99_5 == 99.5.
Proof.
  repeat split; vm_compute; reflexivity.
Qed.
